(** * SCI kernel script/resource calls (engines/sci/engine/kscripts.cpp)

    A shallow embedding of the kernel calls [kLock], [kClone],
    [kDisposeClone], [kScriptID], [kDisposeScript] and [kIsObject], and of
    the parts of the segment manager and of the resource manager they call.

    The kernel calls are translated from kscripts.cpp.  The classes they
    call into (SegManager, Script, Object, ResourceManager) are defined in
    other files of the engine; each of their definitions below says so in
    its comment and follows the design described for them. *)

From Stdlib Require Import ZArith Lia List Bool.
From stdpp Require Import base option list gmap fin_maps.

Local Open Scope Z_scope.

(** ** Registers: [reg_t] *)

(** A [reg_t] is a segment:offset pair of two 16-bit words.  The segment 0
    with offset 0 is the null handle. *)
Record reg_t : Type := mk_reg { getSegment : Z; getOffset : Z }.

#[global] Instance reg_t_eq_dec : EqDecision reg_t.
Proof. solve_decision. Defined.

Definition uint16 (x : Z) : Z := Z.land x 0xFFFF.
Definition uint32 (x : Z) : Z := Z.land x 0xFFFFFFFF.

(** [make_reg(segment, offset)]: both arguments are converted to 16 bits. *)
Definition make_reg (segment offset : Z) : reg_t :=
  mk_reg (uint16 segment) (uint16 offset).

(** [make_reg32(segment, offset)]: the offset is a [uint32]. *)
Definition make_reg32 (segment offset : Z) : reg_t :=
  mk_reg (uint16 segment) (uint32 offset).

Definition NULL_REG : reg_t := make_reg 0 0.

Definition toUint16 (r : reg_t) : Z := uint16 (getOffset r).

Definition bool_to_Z (b : bool) : Z := if b then 1 else 0.

(** ** Fatal errors

    [error(...)] does not return: it unwinds to the engine's top-level
    handler.  A kernel call therefore yields [Normal] with its result or
    [Fatal] with the error that stopped it. *)
Inductive EngineError : Type :=
  | ErrCloneNonObject      (* Attempt to clone non-object/class *)
  | ErrCloneFailed         (* Cloning failed -- internal error *)
  | ErrDisposeNonObject    (* Attempt to dispose non-class/object *)
  | ErrNoDispatchTable     (* no dispatch table and an export was requested *)
  | ErrInvalidExport       (* validateExportFunc: export index out of range *)
  | ErrNotAScript          (* getScript on a segment that holds no script *)
  | ErrBadPointer          (* use of a pointer that does not point anywhere *)
  | ErrMissingArgument.    (* argv read past argc *)

Inductive result (A : Type) : Type :=
  | Normal (a : A)
  | Fatal (e : EngineError).
Arguments Normal {A} a.
Arguments Fatal {A} e.

#[global] Instance result_ret : MRet result := fun A a => Normal a.
#[global] Instance result_bind : MBind result := fun A B f m =>
  match m with
  | Normal a => f a
  | Fatal e => Fatal e
  end.

Definition is_Fatal {A} (r : result A) : Prop :=
  match r with Fatal _ => True | Normal _ => False end.

(** A pointer that may be null, dereferenced. *)
Definition deref {A} (e : EngineError) (p : option A) : result A :=
  match p with Some a => Normal a | None => Fatal e end.

(** [argv[i]].  The kernel dispatcher checks the call against the kernel
    signature, so a read past [argc] does not happen in a running engine;
    here it stops the call. *)
Definition argv_at (argv : list reg_t) (i : nat) : result reg_t :=
  deref ErrMissingArgument (argv !! i).

Definition argc_of (argv : list reg_t) : Z := Z.of_nat (length argv).

(** ** Objects *)

(** Modelled from the spec: the class Object (and Clone, which is the same
    class) is not defined in kscripts.cpp.  An object has an info selector
    (a word of bit flags), a species address, a superclass address, the
    block of its remaining fields, its recorded position ([getPos]: for a
    script object its own address; a clone records the position its parent
    recorded, which names the script the clone comes from) and the Freed
    mark set by [markAsFreed], which the kernel calls never read out of the
    info selector's 16 bits and which is therefore kept beside them. *)
Record Object : Type := mkObject {
  getInfoSelector : reg_t;
  getSpeciesSelector : reg_t;
  getSuperClassSelector : reg_t;
  _variables : list reg_t;
  getPos : reg_t;
  isFreed : bool
}.

Definition Clone : Type := Object.

#[global] Instance Object_eq_dec : EqDecision Object.
Proof. solve_decision. Defined.

Definition setInfoSelector (v : reg_t) (o : Object) : Object :=
  mkObject v (getSpeciesSelector o) (getSuperClassSelector o)
           (_variables o) (getPos o) (isFreed o).

Definition setSpeciesSelector (v : reg_t) (o : Object) : Object :=
  mkObject (getInfoSelector o) v (getSuperClassSelector o)
           (_variables o) (getPos o) (isFreed o).

Definition setSuperClassSelector (v : reg_t) (o : Object) : Object :=
  mkObject (getInfoSelector o) (getSpeciesSelector o) v
           (_variables o) (getPos o) (isFreed o).

Definition markAsFreed (o : Object) : Object :=
  mkObject (getInfoSelector o) (getSpeciesSelector o) (getSuperClassSelector o)
           (_variables o) (getPos o) true.

(** A default-constructed object, as a newly allocated table entry holds. *)
Definition emptyObject : Object :=
  mkObject NULL_REG NULL_REG NULL_REG [] NULL_REG false.

(** ** Segments *)

(** Modelled from the spec: the class Script is not defined in
    kscripts.cpp.  A script segment holds the script's objects, its
    dispatch table (the ordered exported entry offsets), a locker count and
    the deleted flag. *)
Record Script : Type := mkScript {
  getScriptNumber : Z;
  getLockers : Z;
  isMarkedAsDeleted : bool;
  _exportTable : list Z;
  getHeapOffset : Z;
  _objects : gmap Z Object
}.

Definition setLockers (n : Z) (scr : Script) : Script :=
  mkScript (getScriptNumber scr) n (isMarkedAsDeleted scr)
           (_exportTable scr) (getHeapOffset scr) (_objects scr).

Definition incrementLockers (scr : Script) : Script :=
  setLockers (getLockers scr + 1) scr.

Definition getExportsNr (scr : Script) : Z :=
  Z.of_nat (length (_exportTable scr)).

(** Modelled from the spec: Script::validateExportFunc is not defined in
    kscripts.cpp.  An export index outside the dispatch table is a fatal
    error; inside it, the entry's offset is returned. *)
Definition validateExportFunc (scr : Script) (pubfunct : Z) : result Z :=
  if decide (0 <= pubfunct < getExportsNr scr)
  then deref ErrInvalidExport (_exportTable scr !! Z.to_nat pubfunct)
  else Fatal ErrInvalidExport.

(** Modelled from the spec: the segment classes are not defined in
    kscripts.cpp.  A segment is a script, the clone table or the hunk
    arena (of which only the entry sizes are kept). *)
Inductive SegmentObj : Type :=
  | SegScript (scr : Script)
  | SegClones (table : gmap Z Clone)
  | SegHunk (entries : gmap Z Z).

(** Modelled from the spec: the class SegManager is not defined in
    kscripts.cpp.  The heap is an arena of segments addressed by segment
    id; [_clonesSegId] is the id of the clone table (0 before the first
    clone) and [_scriptSegMap] maps a script number to its segment. *)
Record SegManager : Type := mkSegManager {
  _heap : gmap Z SegmentObj;
  _clonesSegId : Z;
  _scriptSegMap : gmap Z Z
}.

Definition setHeap (h : gmap Z SegmentObj) (sm : SegManager) : SegManager :=
  mkSegManager h (_clonesSegId sm) (_scriptSegMap sm).

(** The first key from [from] upwards that lies above every key in use. *)
Definition nextKey {A} (from : Z) (m : gmap Z A) : Z :=
  map_fold (fun k _ acc => Z.max (k + 1) acc) from m.

(** Modelled from the spec: SegManager::getObject.  An address resolves
    to the object stored at its offset in a script segment or in the clone
    table, and to nothing in any other case. *)
Definition getObject (sm : SegManager) (pos : reg_t) : option Object :=
  match _heap sm !! getSegment pos with
  | Some (SegScript scr) => _objects scr !! getOffset pos
  | Some (SegClones table) => table !! getOffset pos
  | _ => None
  end.

(** Modelled from the spec: SegManager::isHeapObject is true iff the
    address resolves to a live object that is not freed. *)
Definition isHeapObject (sm : SegManager) (pos : reg_t) : bool :=
  match getObject sm pos with
  | Some obj => negb (isFreed obj)
  | None => false
  end.

(** Modelled from the spec: SegManager::getScriptIfLoaded returns the
    script of a segment, or null when the segment holds no script. *)
Definition getScriptIfLoaded (sm : SegManager) (seg : Z) : option Script :=
  match _heap sm !! seg with
  | Some (SegScript scr) => Some scr
  | _ => None
  end.

(** Modelled from the spec: SegManager::getScript.  A segment id that
    does not name a script segment is a fatal error. *)
Definition getScript (sm : SegManager) (seg : Z) : result Script :=
  deref ErrNotAScript (getScriptIfLoaded sm seg).

(** Modelled from the spec: SegManager::getScriptSegment(script), the
    segment a script number is mapped to, 0 when it has none. *)
Definition getScriptSegment (sm : SegManager) (script : Z) : Z :=
  default 0 (_scriptSegMap sm !! script).

(** Writing through a [Script *] obtained from [getScript]. *)
Definition putScript (seg : Z) (scr : Script) (sm : SegManager) : SegManager :=
  setHeap (<[seg := SegScript scr]> (_heap sm)) sm.

(** Writing through an [Object *] obtained from [getObject] or from
    [allocateClone]: the object at that address is replaced. *)
Definition putObject (addr : reg_t) (obj : Object) (sm : SegManager) : SegManager :=
  match _heap sm !! getSegment addr with
  | Some (SegScript scr) =>
      putScript (getSegment addr)
        (mkScript (getScriptNumber scr) (getLockers scr) (isMarkedAsDeleted scr)
                  (_exportTable scr) (getHeapOffset scr)
                  (<[getOffset addr := obj]> (_objects scr))) sm
  | Some (SegClones table) =>
      setHeap (<[getSegment addr := SegClones (<[getOffset addr := obj]> table)]> (_heap sm)) sm
  | _ => sm
  end.

(** Modelled from the spec: SegManager::allocateClone allocates a new
    slot in the clone table (creating the table in a new segment on the
    first call) and returns the slot's address; the slot holds a
    default-constructed object.  It returns null when what [_clonesSegId]
    names is not a clone table or when no 16-bit address is left. *)
Definition allocateClone (sm : SegManager) : option (SegManager * reg_t) :=
  '(seg, table) ←
     (if decide (_clonesSegId sm = 0)
      then Some (nextKey 1 (_heap sm), ∅)
      else match _heap sm !! _clonesSegId sm with
           | Some (SegClones table) => Some (_clonesSegId sm, table)
           | _ => None
           end);
  let offset := nextKey 0 table in
  if decide (seg = uint16 seg ∧ offset = uint16 offset)
  then Some (mkSegManager
               (<[seg := SegClones (<[offset := emptyObject]> table)]> (_heap sm))
               seg (_scriptSegMap sm),
             make_reg seg offset)
  else None.

(** ** The execution stack and the engine state *)

(** One frame of the execution stack; [xs_pc] is its [addr.pc], the
    address of the instruction being executed. *)
Record ExecStack : Type := mkExecStack { xs_pc : reg_t }.

(** The part of EngineState the kernel calls of this file use. *)
Record EngineState : Type := mkEngineState {
  r_acc : reg_t;
  _segMan : SegManager;
  _executionStack : list ExecStack
}.

Definition setSegMan (sm : SegManager) (s : EngineState) : EngineState :=
  mkEngineState (r_acc s) sm (_executionStack s).

(** ** Resources *)

(** The resource types kscripts.cpp names, and the others by number. *)
Inductive ResourceType : Type :=
  | kResourceTypeScript
  | kResourceTypeSound
  | kResourceTypeMemory
  | kResourceTypeAudio
  | kResourceTypeAudio36
  | kResourceTypeSync36
  | kResourceTypeWave
  | kResourceTypeRobot
  | kResourceTypeDuck
  | kResourceTypeVMD
  | kResourceTypeInvalid
  | kResourceTypeOther (n : Z).

#[global] Instance ResourceType_eq_dec : EqDecision ResourceType.
Proof. solve_decision. Defined.

Definition ResourceType_code (t : ResourceType) : Z + Z :=
  match t with
  | kResourceTypeScript => inl 0
  | kResourceTypeSound => inl 1
  | kResourceTypeMemory => inl 2
  | kResourceTypeAudio => inl 3
  | kResourceTypeAudio36 => inl 4
  | kResourceTypeSync36 => inl 5
  | kResourceTypeWave => inl 6
  | kResourceTypeRobot => inl 7
  | kResourceTypeDuck => inl 8
  | kResourceTypeVMD => inl 9
  | kResourceTypeInvalid => inl 10
  | kResourceTypeOther n => inr n
  end.

Definition ResourceType_of_code (c : Z + Z) : ResourceType :=
  match c with
  | inl 0 => kResourceTypeScript
  | inl 1 => kResourceTypeSound
  | inl 2 => kResourceTypeMemory
  | inl 3 => kResourceTypeAudio
  | inl 4 => kResourceTypeAudio36
  | inl 5 => kResourceTypeSync36
  | inl 6 => kResourceTypeWave
  | inl 7 => kResourceTypeRobot
  | inl 8 => kResourceTypeDuck
  | inl 9 => kResourceTypeVMD
  | inl _ => kResourceTypeInvalid
  | inr n => kResourceTypeOther n
  end.

#[global] Instance ResourceType_countable : Countable ResourceType.
Proof.
  apply (inj_countable' ResourceType_code ResourceType_of_code).
  intros []; reflexivity.
Defined.

(** A resource id: type, number and the 32-bit tuple of the four sub-keys
    (noun, verb, condition, sequence), zero when absent. *)
Record ResourceId : Type := mkResourceId {
  getType : ResourceType;
  getNumber : Z;
  getTuple : Z
}.

#[global] Instance ResourceId_eq_dec : EqDecision ResourceId.
Proof. solve_decision. Defined.

#[global] Instance ResourceId_countable : Countable ResourceId.
Proof.
  apply (inj_countable'
           (fun id => (getType id, getNumber id, getTuple id))
           (fun t => mkResourceId t.1.1 t.1.2 t.2)).
  intros []; reflexivity.
Defined.

(** [ResourceId(type, number)]: the number is a [uint16]. *)
Definition ResourceId2 (type : ResourceType) (number : Z) : ResourceId :=
  mkResourceId type (uint16 number) 0.

(** Modelled from the spec: the class Resource is not defined in
    kscripts.cpp.  A resource owns its decoded bytes and has a lock
    count. *)
Record Resource : Type := mkResource {
  res_data : list Z;
  res_lockers : Z
}.

Definition isLocked (res : Resource) : bool := 0 <? res_lockers res.

(** The resource manager's map of the resources held in memory. *)
Abbreviation ResourceManager := (gmap ResourceId Resource).

(** The lock count of a resource id: that of its resource, 0 when the
    resource is not held. *)
Definition lockCount (rm : ResourceManager) (id : ResourceId) : Z :=
  match rm !! id with
  | Some res => res_lockers res
  | None => 0
  end.

(** Modelled from the spec: ResourceManager::testResource looks a
    resource up without loading it. *)
Definition testResource (rm : ResourceManager) (id : ResourceId) : option Resource :=
  rm !! id.

(** Modelled from the spec: ResourceManager::unlockResource decrements
    the lock count; on a count already at zero it does nothing. *)
Definition unlockResource (id : ResourceId) (rm : ResourceManager) : ResourceManager :=
  match rm !! id with
  | Some res =>
      if isLocked res
      then <[id := mkResource (res_data res) (res_lockers res - 1)]> rm
      else rm
  | None => rm
  end.

(** Modelled from the spec: ResourceManager::listResources, the ids of
    the resources of one type. *)
Definition listResources (rm : ResourceManager) (type : ResourceType) : list ResourceId :=
  filter (fun id => getType id = type) (map_to_list rm).*1.

(** The ids Audio32 keeps locked (SCI3 audio). *)
Abbreviation Audio32 := (list ResourceId).

(** The engine singleton [g_sci], as far as [kLock] changes it. *)
Record SciEngine : Type := mkSciEngine {
  getResMan : ResourceManager;
  _audio32 : Audio32
}.

(** ** What the other kernel calls of the file use *)

(** The result of a selector lookup. *)
Inductive SelectorType : Type :=
  | kSelectorNone
  | kSelectorVariable
  | kSelectorMethod.

#[global] Instance SelectorType_eq_dec : EqDecision SelectorType.
Proof. solve_decision. Defined.

(** The file name patterns of [kResCheck]: "%u.rbt", "%u.duk", "%u.vmd". *)
Inductive FileFormat : Type :=
  | format_rbt
  | format_duk
  | format_vmd.

(** Modelled from the spec: the constructor of ResourceId with the four
    sub-keys noun, verb, condition and sequence, a byte each, which make up
    the tuple. *)
Definition ResourceId6 (type : ResourceType) (number noun verb cond seq : Z) : ResourceId :=
  mkResourceId type (uint16 number)
    (Z.lor (Z.lor (Z.lor (Z.shiftl (Z.land noun 0xFF) 24)
                         (Z.shiftl (Z.land verb 0xFF) 16))
                  (Z.shiftl (Z.land cond 0xFF) 8))
           (Z.land seq 0xFF)).

(** [res != nullptr]. *)
Definition notNull {A} (p : option A) : bool :=
  match p with Some _ => true | None => false end.


(** ** An example engine

    A configuration and a few states on which the kernel calls are run
    below.  The theorems hold for every configuration; this one is SCI0
    with the usual flag values. *)

Definition ex_kInfoFlagClone : Z := 0x0001.
Definition ex_kInfoFlagClass : Z := 0x8000.
Definition ex_SIGNAL_OFFSET : Z := 0xFFFF.
Definition ex_SCI_VERSION_0_LATE : Z := 2.
Definition ex_SCI_VERSION_1_1 : Z := 8.
Definition ex_SCI_VERSION_2 : Z := 9.

Definition ex_convertResType (n : Z) : ResourceType :=
  if n =? 0x84 then kResourceTypeSound
  else if n =? 0x92 then kResourceTypeAudio36
  else if n =? 0x93 then kResourceTypeSync36
  else kResourceTypeOther (Z.land n 0x7F).

Definition ex_getSoundResourceType (n : Z) : ResourceType := kResourceTypeSound.

Definition ex_audio32_lockResource (id : ResourceId) (lock : bool) (a : Audio32) : Audio32 :=
  if lock then id :: a else filter (fun id' => id' ≠ id) a.

(** A backing store that has every resource, with no bytes in it. *)
Definition ex_fetch (id : ResourceId) : option (list Z) := Some [].

(** The most eager eviction policy: every resource that is not locked is
    dropped. *)
Definition ex_freeOldResources (rm : ResourceManager) : ResourceManager :=
  filter (fun kv => res_lockers kv.2 ≠ 0) rm.

(** A class object of script 5, at 0001:000a. *)
Definition ex_C : reg_t := mk_reg 1 10.
Definition ex_class : Object :=
  mkObject (make_reg 0 0x8000) ex_C NULL_REG [make_reg 0 7] ex_C false.

(** Script 5, without a dispatch table, and script 6, with two exports. *)
Definition ex_script5 : Script := mkScript 5 3 false [] 0 {[10 := ex_class]}.
Definition ex_script6 : Script := mkScript 6 1 false [100; 200] 0 ∅.

Definition ex_scriptStore (script : Z) : option Script :=
  if script =? 5 then Some ex_script5
  else if script =? 6 then Some ex_script6
  else None.

(** A reclamation step that leaves the segment manager as it is. *)
Definition ex_uninstantiateScript (script : Z) (sm : SegManager) : result SegManager :=
  Normal sm.

(** Script 5 is loaded in segment 1; there is no clone yet; the engine is
    executing in segment 3. *)
Definition ex_segMan : SegManager :=
  mkSegManager {[1 := SegScript ex_script5]} 0 {[5 := 1]}.
Definition ex_state : EngineState :=
  mkEngineState (make_reg 0 5) ex_segMan [mkExecStack (mk_reg 3 0)].

(** The first clone slot, 0002:0000, after its allocation. *)
Definition ex_A : reg_t := mk_reg 2 0.
Definition ex_segMan_alloc : SegManager :=
  mkSegManager
    (<[2 := SegClones {[0 := emptyObject]}]> {[1 := SegScript ex_script5]}) 2 {[5 := 1]}.

(** The state after cloning the class: the clone sits at 0002:0000. *)
Definition ex_clone : Clone :=
  mkObject (make_reg 0 1) ex_C ex_C [make_reg 0 7] ex_C false.
Definition ex_segMan2 : SegManager :=
  mkSegManager
    (<[2 := SegClones {[0 := ex_clone]}]> {[1 := SegScript (setLockers 5 ex_script5)]})
    2 {[5 := 1]}.
Definition ex_state2 : EngineState :=
  mkEngineState (make_reg 0 5) ex_segMan2 [mkExecStack (mk_reg 3 0)].

(** The second clone slot, 0002:0001, after its allocation. *)
Definition ex_A2 : reg_t := mk_reg 2 1.
Definition ex_segMan2_alloc : SegManager :=
  mkSegManager
    (<[2 := SegClones (<[1 := emptyObject]> {[0 := ex_clone]})]>
       {[1 := SegScript (setLockers 5 ex_script5)]})
    2 {[5 := 1]}.



(** The segment manager of [ex_state] once script 6 is loaded, in
    segment 2. *)
Definition ex_segMan_loaded6 : SegManager :=
  mkSegManager
    (<[2 := SegScript ex_script6]> {[1 := SegScript ex_script5]})
    0 (<[6 := 2]> {[5 := 1]}).

(** A resource manager that holds view 7 with two locks. *)
Definition ex_R : ResourceId := mkResourceId (kResourceTypeOther 0) 7 0.
Definition ex_engine : SciEngine :=
  mkSciEngine {[ex_R := mkResource [] 2]} [].

(** ** More of the example engine *)

(** An example numbering of the resource types. *)
Definition ex_ResourceType_value (t : ResourceType) : Z :=
  match t with
  | kResourceTypeScript => 2
  | kResourceTypeSound => 4
  | kResourceTypeMemory => 5
  | kResourceTypeAudio => 12
  | kResourceTypeAudio36 => 18
  | kResourceTypeSync36 => 19
  | kResourceTypeWave => 20
  | kResourceTypeRobot => 21
  | kResourceTypeDuck => 22
  | kResourceTypeVMD => 23
  | kResourceTypeInvalid => 31
  | kResourceTypeOther n => n
  end.

(** A type conversion that also knows Wave (0x94) and Robot (0x95). *)
Definition ex_convertResType2 (n : Z) : ResourceType :=
  if n =? 0x94 then kResourceTypeWave
  else if n =? 0x95 then kResourceTypeRobot
  else ex_convertResType n.

(** A segment manager without hunk memory. *)
Definition ex_allocateHunkEntry (size : Z) (sm : SegManager) : SegManager * reg_t :=
  (sm, NULL_REG).

(** Only the file 7.rbt exists. *)
Definition ex_fileExists (format : FileFormat) (n : Z) : bool :=
  match format with
  | format_rbt => n =? 7
  | _ => false
  end.

(** Every object has the method with selector 1 and nothing else; the
    lookup on what is no object is a fatal error. *)
Definition ex_lookupSelector (sm : SegManager) (obj : reg_t) (selector : Z)
  : result SelectorType :=
  match getObject sm obj with
  | Some _ => Normal (if selector =? 1 then kSelectorMethod else kSelectorNone)
  | None => Fatal ErrBadPointer
  end.

(** A resource manager that holds the Audio36 resource 7 with the tuple
    (1, 2, 3, 4), and one that holds the Audio resource 7. *)
Definition ex_engine36 : SciEngine :=
  mkSciEngine {[ResourceId6 kResourceTypeAudio36 7 1 2 3 4 := mkResource [] 0]} [].
Definition ex_engine_audio : SciEngine :=
  mkSciEngine {[mkResourceId kResourceTypeAudio 7 0 := mkResource [] 0]} [].

(** A resource manager that holds nothing. *)
Definition ex_engine_empty : SciEngine := mkSciEngine ∅ [].

(** Views 7 (two locks) and 8 (one lock), and a resource of another type
    (one lock). *)
Definition ex_R8 : ResourceId := mkResourceId (kResourceTypeOther 0) 8 0.
Definition ex_R_other : ResourceId := mkResourceId (kResourceTypeOther 1) 3 0.
Definition ex_engine_many : SciEngine :=
  mkSciEngine
    (<[ex_R := mkResource [] 2]>
       (<[ex_R8 := mkResource [] 1]> {[ex_R_other := mkResource [] 1]}))
    [].

(** The clone of [ex_state2] after its script's segment has gone. *)
Definition ex_state_orphan : EngineState :=
  mkEngineState (make_reg 0 5)
    (mkSegManager {[2 := SegClones {[0 := ex_clone]}]} 2 ∅)
    [mkExecStack (mk_reg 3 0)].

(** [ex_state] with the class marked freed. *)
Definition ex_state_freed : EngineState :=
  mkEngineState (make_reg 0 5)
    (mkSegManager
       {[1 := SegScript (mkScript 5 3 false [] 0 {[10 := markAsFreed ex_class]})]}
       0 {[5 := 1]})
    [mkExecStack (mk_reg 3 0)].

(** [ex_state] with an empty execution stack. *)
Definition ex_state_nostack : EngineState :=
  mkEngineState (make_reg 0 5) ex_segMan [].


(** ** The kernel calls *)

Section KScripts.

(** What kscripts.cpp takes from the rest of the engine without defining
    it: constants, the engine's configuration and its collaborators. *)

(** Info selector flags (an enum of the Object class). *)
Variable kInfoFlagClone : Z.
Variable kInfoFlagClass : Z.

(** The offset that marks a signal value. *)
Variable SIGNAL_OFFSET : Z.

(** [getSciVersion()] and the two versions it is compared with. *)
Variable getSciVersion : Z.
Variable SCI_VERSION_1_1 : Z.
Variable SCI_VERSION_2 : Z.

(** [g_sci->_features->hasSci3Audio()]; false in a build without SCI32. *)
Variable hasSci3Audio : bool.

(** [g_sci->getGameId() == GID_HOYLE3 && g_sci->getPlatform() == kPlatformAmiga]. *)
Variable isHoyle3Amiga : bool.

(** [ResourceManager::convertResType] and
    [SoundCommandParser::getSoundResourceType]. *)
Variable convertResType : Z -> ResourceType.
Variable getSoundResourceType : Z -> ResourceType.

(** [Audio32::lockResource]. *)
Variable audio32_lockResource : ResourceId -> bool -> Audio32 -> Audio32.

(** The backing asset store: the bytes of a resource, if it has it. *)
Variable fetch : ResourceId -> option (list Z).

(** The resource manager's eviction policy. *)
Variable freeOldResources : ResourceManager -> ResourceManager.

(** The script a script number loads to, if the script can be found. *)
Variable scriptStore : Z -> option Script.

(** [SegManager::uninstantiateScript], the generic reclamation step. *)
Variable uninstantiateScript : Z -> SegManager -> result SegManager.

(** Modelled from the spec: Object::isClass tests the Class flag. *)
Definition isClass (o : Object) : bool :=
  negb (Z.land (toUint16 (getInfoSelector o)) kInfoFlagClass =? 0).

(** Modelled from the spec: ResourceManager::findResource(id, lock) is
    the store's lookup-or-load: it loads the resource from the backing
    store if it is not in memory, increments the lock count when [lock]
    is set, lets the eviction policy run, and returns null when the
    resource cannot be found. *)
Definition findResource (id : ResourceId) (lock : bool) (rm : ResourceManager)
  : ResourceManager * option Resource :=
  let found :=
    match rm !! id with
    | Some res => Some (rm, res)
    | None =>
        match fetch id with
        | Some bytes => Some (<[id := mkResource bytes 0]> rm, mkResource bytes 0)
        | None => None
        end
    end in
  match found with
  | Some (rm1, res) =>
      if lock
      then let res' := mkResource (res_data res) (res_lockers res + 1) in
           (freeOldResources (<[id := res']> rm1), Some res')
      else (freeOldResources rm1, Some res)
  | None => (rm, None)
  end.

(** Modelled from the spec: SegManager::getScriptSegment(script,
    SCRIPT_GET_LOAD) locates the segment of a loaded script, or loads
    the script (into the segment it had if that one holds its deleted
    script, into a new segment otherwise); it returns 0 when the script
    cannot be found. *)
Definition getScriptSegment_load (sm : SegManager) (script : Z) : SegManager * Z :=
  let seg := getScriptSegment sm script in
  let install (seg' : Z) :=
    match scriptStore script with
    | Some scr =>
        (mkSegManager
           (<[seg' := SegScript (mkScript (getScriptNumber scr) (getLockers scr) false
                                          (_exportTable scr) (getHeapOffset scr)
                                          (_objects scr))]> (_heap sm))
           (_clonesSegId sm)
           (<[script := seg']> (_scriptSegMap sm)),
         seg')
    | None => (sm, 0)
    end in
  match getScriptIfLoaded sm seg with
  | Some scr => if isMarkedAsDeleted scr then install seg else (sm, seg)
  | None => install (nextKey 1 (_heap sm))
  end.

(** What the design asks of the eviction policy: a resource whose lock
    count is not zero is never evicted, and evicting neither adds nor
    alters a resource. *)
Definition eviction_policy : Prop :=
  ∀ (rm : ResourceManager) (id : ResourceId) (res : Resource),
    (rm !! id = Some res -> res_lockers res ≠ 0 ->
     freeOldResources rm !! id = Some res) ∧
    (freeOldResources rm !! id = Some res -> rm !! id = Some res).

(** *** kLock *)

(** The resource id [kLock] works on (lines 85-90). *)
Definition kLock_type (a0 a1 : reg_t) : ResourceType :=
  let type := convertResType (toUint16 a0) in
  if bool_decide (type = kResourceTypeSound) && (SCI_VERSION_1_1 <=? getSciVersion)
  then getSoundResourceType (toUint16 a1)
  else type.

Definition kLock_id (a0 a1 : reg_t) : ResourceId :=
  ResourceId2 (kLock_type a0 a1) (toUint16 a1).

(** The loop of lines 113-119 over the resources of a type. *)
Definition unlockAll (ids : list ResourceId) (rm : ResourceManager) : ResourceManager :=
  foldl (fun rm id =>
           match testResource rm id with
           | Some res => if isLocked res then unlockResource id rm else rm
           | None => rm
           end) rm ids.

(** Lines 93-136: what [kLock] does once the resource id and the lock
    flag are known. *)
Definition kLock_apply (g : SciEngine) (s : EngineState)
    (type : ResourceType) (id : ResourceId) (lock : bool)
  : result (SciEngine * reg_t) :=
  if hasSci3Audio && bool_decide (type = kResourceTypeAudio)
  then Normal (mkSciEngine (getResMan g) (audio32_lockResource id lock (_audio32 g)),
               r_acc s)
  else if (getSciVersion =? SCI_VERSION_1_1) &&
          (bool_decide (type = kResourceTypeAudio36) ||
           bool_decide (type = kResourceTypeSync36))
  then Normal (g, r_acc s)
  else
    let rm := getResMan g in
    let rm' :=
      if lock
      then (findResource id true rm).1
      else if (getSciVersion <? SCI_VERSION_2) && (getNumber id =? 0xFFFF)
      then unlockAll (listResources rm type) rm
      else
        let '(rm1, which) := findResource id false rm in
        match which with
        | Some _ => unlockResource id rm1
        | None => rm1   (* a warning or a debug message, no effect *)
        end in
    Normal (mkSciEngine rm' (_audio32 g), r_acc s).

(** [argc > 2 ? argv[2].toUint16() : true], for the arguments after the
    first two. *)
Definition kLock_flag (rest : list reg_t) : bool :=
  match rest with
  | [] => true
  | a2 :: _ => negb (toUint16 a2 =? 0)
  end.

Definition kLock (g : SciEngine) (s : EngineState) (argv : list reg_t)
  : result (SciEngine * reg_t) :=
  a0 ← argv_at argv 0;
  a1 ← argv_at argv 1;
  let type := kLock_type a0 a1 in
  let id := ResourceId2 type (toUint16 a1) in
  lock ← (if 2 <? argc_of argv
          then a2 ← argv_at argv 2; Normal (negb (toUint16 a2 =? 0))
          else Normal true);
  kLock_apply g s type id lock.

(** *** kClone *)

(** Lines 228-236: the object written into the new slot, from the
    parent object and the parent's info selector as read at line 208.
    The assignment of line 228 copies the whole parent object, its
    recorded position with the rest, so [cloneObj->getPos()] at lines 234
    and 238 is the position the parent recorded: an address in the
    parent's script, which is what [getScript] at line 238 needs, and
    not the address of the new slot in the clone table. *)
Definition kClone_copy (parentObj : Object) (infoSelector : Z) : Clone :=
  (* *cloneObj = *parentObj *)
  let cloneObj := parentObj in
  (* infoSelector &= ~kInfoFlagClass *)
  let infoSelector := uint16 (Z.land infoSelector (Z.lnot kInfoFlagClass)) in
  let cloneObj :=
    setInfoSelector (make_reg 0 (Z.lor infoSelector kInfoFlagClone)) cloneObj in
  let cloneObj := setSpeciesSelector (getPos cloneObj) cloneObj in
  if isClass parentObj
  then setSuperClassSelector (getPos parentObj) cloneObj
  else cloneObj.

Definition kClone (s : EngineState) (argv : list reg_t)
  : result (EngineState * reg_t) :=
  parentAddr ← argv_at argv 0;
  match getObject (_segMan s) parentAddr with
  | None => Fatal ErrCloneNonObject
  | Some parentObj =>
      let infoSelector := toUint16 (getInfoSelector parentObj) in
      match allocateClone (_segMan s) with
      | None => Fatal ErrCloneFailed
      | Some (sm1, cloneAddr) =>
          (* the parent pointer is refreshed only for a clone *)
          parentObj ← (if Z.land infoSelector kInfoFlagClone =? 0
                       then Normal parentObj
                       else deref ErrBadPointer (getObject sm1 parentAddr));
          let cloneObj := kClone_copy parentObj infoSelector in
          let sm2 := putObject cloneAddr cloneObj sm1 in
          let seg1 := getSegment (getPos parentObj) in
          scr1 ← getScript sm2 seg1;
          let sm3 := putScript seg1 (incrementLockers scr1) sm2 in
          let seg2 := getSegment (getPos cloneObj) in
          scr2 ← getScript sm3 seg2;
          let sm4 := putScript seg2 (incrementLockers scr2) sm3 in
          Normal (setSegMan sm4 s, cloneAddr)
      end
  end.

(** *** kDisposeClone *)

Definition kDisposeClone (s : EngineState) (argv : list reg_t)
  : result (EngineState * reg_t) :=
  obj ← argv_at argv 0;
  match getObject (_segMan s) obj with
  | None => Fatal ErrDisposeNonObject
  | Some object =>
      let infoSelector := toUint16 (getInfoSelector object) in
      if Z.land infoSelector 3 =? kInfoFlagClone
      then Normal (setSegMan (putObject obj (markAsFreed object) (_segMan s)) s, r_acc s)
      else Normal (s, r_acc s)
  end.

(** *** kScriptID *)

(** Lines 269-297, once [argv[0]], the script number, the export
    index and [argc] are known. *)
Definition kScriptID_resolve (s : EngineState) (a0 : reg_t) (script index argc : Z)
  : result (EngineState * reg_t) :=
  if negb (getSegment a0 =? 0)
  then Normal (s, a0)
  else
    let '(sm1, scriptSeg) := getScriptSegment_load (_segMan s) script in
    let s1 := setSegMan sm1 s in
    if scriptSeg =? 0
    then Normal (s1, NULL_REG)
    else
      scr ← getScript sm1 scriptSeg;
      if getExportsNr scr =? 0
      then
        if argc =? 2
        then Fatal ErrNoDispatchTable
        else Normal (s1, NULL_REG)
      else if isHoyle3Amiga && (script =? 601) && (argc =? 1)
      then Normal (s1, NULL_REG)
      else
        offset ← validateExportFunc scr index;
        let address := uint32 (offset + getHeapOffset scr) in
        Normal (s1, make_reg32 scriptSeg address).

Definition kScriptID (s : EngineState) (argv : list reg_t)
  : result (EngineState * reg_t) :=
  a0 ← argv_at argv 0;
  let argc := argc_of argv in
  let script := toUint16 a0 in
  index ← (if 1 <? argc
           then a1 ← argv_at argv 1; Normal (toUint16 a1)
           else Normal 0);
  kScriptID_resolve s a0 script index argc.

(** *** kDisposeScript *)

(** [_executionStack.back()]; the list must not be empty. *)
Definition back (stack : list ExecStack) : result ExecStack :=
  deref ErrBadPointer (last stack).

(** Lines 301-308: the segment manager as it is handed to
    [uninstantiateScript]. *)
Definition kDisposeScript_before (s : EngineState) (script : Z) : result SegManager :=
  let id := getScriptSegment (_segMan s) script in
  match getScriptIfLoaded (_segMan s) id with
  | Some scr =>
      if negb (isMarkedAsDeleted scr)
      then
        top ← back (_executionStack s);
        if negb (getSegment (xs_pc top) =? id)
        then Normal (putScript id (setLockers 1 scr) (_segMan s))
        else Normal (_segMan s)
      else Normal (_segMan s)
  | None => Normal (_segMan s)
  end.

Definition kDisposeScript (s : EngineState) (argv : list reg_t)
  : result (EngineState * reg_t) :=
  a0 ← argv_at argv 0;
  let script := getOffset a0 in
  sm1 ← kDisposeScript_before s script;
  sm2 ← uninstantiateScript script sm1;
  if negb (argc_of argv =? 2)
  then Normal (setSegMan sm2 s, r_acc s)
  else
    a1 ← argv_at argv 1;
    Normal (setSegMan sm2 s, a1).

(** *** kIsObject *)

Definition kIsObject (s : EngineState) (argv : list reg_t) : result reg_t :=
  a0 ← argv_at argv 0;
  if getOffset a0 =? SIGNAL_OFFSET
  then Normal NULL_REG
  else Normal (make_reg 0 (bool_to_Z (isHeapObject (_segMan s) a0))).

(** *** kLoad and kUnLoad *)

(** The numeric value of a resource type (the enum is a plain C enum). *)
Variable ResourceType_value : ResourceType -> Z.

(** [SegManager::allocateHunkEntry] (for a size) and
    [SegManager::freeHunkEntry]. *)
Variable allocateHunkEntry : Z -> SegManager -> SegManager * reg_t.
Variable freeHunkEntry : reg_t -> SegManager -> SegManager.

(** The handle [kLoad] returns for a resource that is not hunk memory. *)
Definition kLoad_handle (restype : ResourceType) (resnr : Z) : reg_t :=
  make_reg 0 (Z.lor (Z.shiftl (ResourceType_value restype) 11) resnr).

Definition kLoad (s : EngineState) (argv : list reg_t)
  : result (EngineState * reg_t) :=
  a0 ← argv_at argv 0;
  a1 ← argv_at argv 1;
  let restype := convertResType (toUint16 a0) in
  let resnr := toUint16 a1 in
  if bool_decide (restype = kResourceTypeMemory)
  then
    let '(sm1, addr) := allocateHunkEntry resnr (_segMan s) in
    Normal (setSegMan sm1 s, addr)
  else Normal (s, kLoad_handle restype resnr).

Definition kUnLoad (s : EngineState) (argv : list reg_t)
  : result (EngineState * reg_t) :=
  a0 ← argv_at argv 0;
  a1 ← argv_at argv 1;
  let restype := convertResType (toUint16 a0) in
  let resnr := a1 in
  if bool_decide (restype = kResourceTypeMemory)
  then Normal (setSegMan (freeHunkEntry resnr (_segMan s)) s, r_acc s)
  else Normal (s, r_acc s).

(** *** kResCheck *)

(** Whether the engine is built with [ENABLE_SCI32], and
    [g_sci->getGameId() == GID_LSL6HIRES]. *)
Variable ENABLE_SCI32 : bool.
Variable isLSL6Hires : bool.

(** [Common::File::exists] of the file name a pattern gives for a number. *)
Variable fileExists : FileFormat -> Z -> bool.

(** The [switch] of lines 171-183. *)
Definition kResCheck_format (restype : ResourceType) : option FileFormat :=
  match restype with
  | kResourceTypeRobot => Some format_rbt
  | kResourceTypeDuck => Some format_duk
  | kResourceTypeVMD => Some format_vmd
  | _ => None
  end.

Definition kResCheck (g : SciEngine) (argv : list reg_t) : result reg_t :=
  a0 ← argv_at argv 0;
  let restype := convertResType (toUint16 a0) in
  let resMan := getResMan g in
  res ← (if bool_decide (restype = kResourceTypeAudio36) ||
            bool_decide (restype = kResourceTypeSync36)
         then
           if 6 <=? argc_of argv
           then
             a1 ← argv_at argv 1;
             a2 ← argv_at argv 2;
             a3 ← argv_at argv 3;
             a4 ← argv_at argv 4;
             a5 ← argv_at argv 5;
             let noun := Z.land (toUint16 a2) 0xff in
             let verb := Z.land (toUint16 a3) 0xff in
             let cond := Z.land (toUint16 a4) 0xff in
             let seq := Z.land (toUint16 a5) 0xff in
             Normal (testResource resMan
                       (ResourceId6 restype (toUint16 a1) noun verb cond seq))
           else Normal None
         else
           a1 ← argv_at argv 1;
           Normal (testResource resMan (ResourceId2 restype (toUint16 a1))));
  if ENABLE_SCI32
  then
    res ← (if isLSL6Hires && bool_decide (restype = kResourceTypeWave) && negb (notNull res)
           then
             a1 ← argv_at argv 1;
             Normal (testResource resMan (ResourceId2 kResourceTypeAudio (toUint16 a1)))
           else Normal res);
    match res, kResCheck_format restype with
    | None, Some format =>
        a1 ← argv_at argv 1;
        Normal (make_reg 0 (bool_to_Z (fileExists format (toUint16 a1))))
    | _, _ => Normal (make_reg 0 (bool_to_Z (notNull res)))
    end
  else Normal (make_reg 0 (bool_to_Z (notNull res))).

(** *** kRespondsTo *)

(** [lookupSelector(segMan, obj, selector, nullptr, nullptr)]; it may stop
    with a fatal error. *)
Variable lookupSelector : SegManager -> reg_t -> Z -> result SelectorType.

(** The right operand of [&&] is evaluated only when the left one is
    true. *)
Definition kRespondsTo (s : EngineState) (argv : list reg_t) : result reg_t :=
  obj ← argv_at argv 0;
  a1 ← argv_at argv 1;
  let selector := toUint16 a1 in
  if isHeapObject (_segMan s) obj
  then
    t ← lookupSelector (_segMan s) obj selector;
    Normal (make_reg 0 (bool_to_Z (negb (bool_decide (t = kSelectorNone)))))
  else Normal (make_reg 0 (bool_to_Z false)).

(** *** Sequences of calls *)

(** The same [kLock] call made [n] times in a row. *)
Fixpoint kLock_repeat (n : nat) (g : SciEngine) (s : EngineState) (argv : list reg_t)
  : result SciEngine :=
  match n with
  | O => Normal g
  | S n' =>
      r ← kLock g s argv;
      kLock_repeat n' r.1 s argv
  end.


(** ** The claims as the specification words them, where the code differs *)

(** The specification's reading of [kClone] on a class object [C]: it
    returns a fresh address [A]; the new object's species is [A] and its
    superclass is [C]; its Clone bit is set and its Class bit is clear;
    and the locker count of every script segment grows by one for owning
    [C] and by one for owning [A]. *)
Definition cloneObject_claim (s : EngineState) (C : reg_t) : Prop :=
  ∃ s' A o,
    kClone s [C] = Normal (s', A) ∧
    A ≠ C ∧
    getObject (_segMan s') A = Some o ∧
    getSpeciesSelector o = A ∧
    getSuperClassSelector o = C ∧
    Z.land (toUint16 (getInfoSelector o)) kInfoFlagClone = kInfoFlagClone ∧
    Z.land (toUint16 (getInfoSelector o)) kInfoFlagClass = 0 ∧
    ∀ seg scr,
      getScriptIfLoaded (_segMan s) seg = Some scr ->
      ∃ scr',
        getScriptIfLoaded (_segMan s') seg = Some scr' ∧
        getLockers scr' =
          getLockers scr
          + (if decide (seg = getSegment C) then 1 else 0)
          + (if decide (seg = getSegment A) then 1 else 0).


(** The specification's reading of [kDisposeClone]'s result: the
    accumulator with one argument, the second argument when there is
    one. *)
Definition disposeClone_result_claim (s : EngineState) (obj pass : reg_t) : Prop :=
  (∃ s', kDisposeClone s [obj] = Normal (s', r_acc s)) ∧
  (∃ s', kDisposeClone s [obj; pass] = Normal (s', pass)).

(** ** Proofs *)

(** *** The error monad *)

Lemma bind_Normal {A B} (a : A) (f : A -> result B) :
  (Normal a ≫= f) = f a.
Proof. reflexivity. Qed.

Lemma argv_at_0 a rest : argv_at (a :: rest) 0 = Normal a.
Proof. reflexivity. Qed.

Lemma argv_at_1 a b rest : argv_at (a :: b :: rest) 1 = Normal b.
Proof. reflexivity. Qed.

(** *** kIsObject *)

(** C9: for every address whose offset is the signal offset, kIsObject
    returns the null register, whatever the engine state (and so whatever
    the heap holds at that address) and whatever the segment. *)
Theorem kIsObject_signal_offset (s : EngineState) (a : reg_t) (rest : list reg_t) :
  getOffset a = SIGNAL_OFFSET ->
  kIsObject s (a :: rest) = Normal NULL_REG.
Proof.
  intros Hoff. unfold kIsObject. rewrite argv_at_0, bind_Normal.
  rewrite Hoff, Z.eqb_refl. reflexivity.
Qed.

(** *** kDisposeScript *)

(** C4: when the script's segment is loaded and not marked deleted, the
    segment manager handed to uninstantiateScript has the script's locker
    count set to 1 if the top frame of the execution stack executes in
    another segment, and is the unchanged segment manager if it executes
    in the script's segment. *)
Theorem kDisposeScript_lockers_before_uninstantiate
    (s : EngineState) (a0 : reg_t) (rest : list reg_t) (scr : Script) (top : ExecStack) :
  let script := getOffset a0 in
  let id := getScriptSegment (_segMan s) script in
  getScriptIfLoaded (_segMan s) id = Some scr ->
  isMarkedAsDeleted scr = false ->
  last (_executionStack s) = Some top ->
  ∃ sm1,
    kDisposeScript_before s script = Normal sm1 ∧
    kDisposeScript s (a0 :: rest) =
      (sm2 ← uninstantiateScript script sm1;
       Normal (setSegMan sm2 s,
               match rest with [a1] => a1 | _ => r_acc s end)) ∧
    (getSegment (xs_pc top) ≠ id ->
       sm1 = putScript id (setLockers 1 scr) (_segMan s) ∧
       getLockers <$> getScriptIfLoaded sm1 id = Some 1) ∧
    (getSegment (xs_pc top) = id -> sm1 = _segMan s).
Proof.
  intros script id Hscr Hdel Htop.
  assert (Hbefore : kDisposeScript_before s script =
            Normal (if getSegment (xs_pc top) =? id
                    then _segMan s
                    else putScript id (setLockers 1 scr) (_segMan s))).
  { unfold kDisposeScript_before. fold id. rewrite Hscr, Hdel. simpl.
    unfold back. rewrite Htop. simpl.
    destruct (getSegment (xs_pc top) =? id); reflexivity. }
  eexists. split; [exact Hbefore|]. split.
  - unfold kDisposeScript. rewrite argv_at_0, bind_Normal. fold script.
    rewrite Hbefore, bind_Normal.
    destruct (uninstantiateScript script _) as [sm2|e]; [|reflexivity].
    rewrite bind_Normal. unfold argc_of.
    destruct rest as [|a1 [|a2 rest]]; [reflexivity | reflexivity |].
    replace (Z.of_nat (length (a0 :: a1 :: a2 :: rest)) =? 2) with false;
      [reflexivity|].
    symmetry. apply Z.eqb_neq. simpl length. lia.
  - split.
    + intros Hne. apply Z.eqb_neq in Hne. rewrite Hne. split; [reflexivity|].
      unfold getScriptIfLoaded, putScript. simpl.
      rewrite lookup_insert_eq. reflexivity.
    + intros He. apply Z.eqb_eq in He. rewrite He. reflexivity.
Qed.

(** *** kLock *)

Lemma kLock_eq g s a0 a1 rest :
  kLock g s (a0 :: a1 :: rest) =
  kLock_apply g s (kLock_type a0 a1) (kLock_id a0 a1) (kLock_flag rest).
Proof.
  unfold kLock. rewrite argv_at_0, bind_Normal, argv_at_1, bind_Normal.
  destruct rest as [|a2 rest]; [reflexivity|].
  replace (2 <? argc_of (a0 :: a1 :: a2 :: rest)) with true; [reflexivity|].
  symmetry. apply Z.ltb_lt. unfold argc_of. simpl length. lia.
Qed.

(** C10: on SCI 1.1, when the resource type kLock arrives at is Audio36
    or Sync36, kLock returns the accumulator and leaves the engine (the
    resource manager and Audio32) exactly as it was, whether or not a
    lock flag is passed and whatever its value. *)
Theorem kLock_sci11_audio36_sync36_noop
    (g : SciEngine) (s : EngineState) (a0 a1 : reg_t) (rest : list reg_t) :
  getSciVersion = SCI_VERSION_1_1 ->
  kLock_type a0 a1 = kResourceTypeAudio36 ∨ kLock_type a0 a1 = kResourceTypeSync36 ->
  kLock g s (a0 :: a1 :: rest) = Normal (g, r_acc s).
Proof.
  intros Hver Htype. rewrite kLock_eq. unfold kLock_apply.
  rewrite Hver, Z.eqb_refl.
  destruct Htype as [-> | ->]; simpl; rewrite andb_false_r; reflexivity.
Qed.

(** *** Objects in the heap *)

Lemma getObject_putObject_eq sm a o o' :
  getObject sm a = Some o ->
  getObject (putObject a o' sm) a = Some o'.
Proof.
  unfold getObject, putObject. intros H.
  destruct (_heap sm !! getSegment a) as [[scr|table|h]|]; try discriminate;
    simpl; rewrite lookup_insert_eq; simpl; apply lookup_insert_eq.
Qed.


(** *** kDisposeClone *)




(** C5, as the code has it: on an address that resolves to an object,
    kDisposeClone returns the accumulator, with one argument and with
    any further arguments alike. *)
Theorem kDisposeClone_returns_accumulator
    (s : EngineState) (obj : reg_t) (rest : list reg_t) (object : Object) :
  getObject (_segMan s) obj = Some object ->
  ∃ s', kDisposeClone s (obj :: rest) = Normal (s', r_acc s).
Proof.
  intros Hobj. unfold kDisposeClone. rewrite argv_at_0, bind_Normal, Hobj.
  destruct (_ =? _); eexists; reflexivity.
Qed.

(** *** kScriptID *)

Lemma getScriptSegment_load_idem sm script sm1 seg :
  getScriptSegment_load sm script = (sm1, seg) ->
  getScriptSegment_load sm1 script = (sm1, seg).
Proof.
  unfold getScriptSegment_load.
  destruct (getScriptIfLoaded sm (getScriptSegment sm script)) as [scr|] eqn:E.
  - destruct (isMarkedAsDeleted scr) eqn:D.
    + destruct (scriptStore script) as [img|] eqn:St.
      * intros [= <- <-]. unfold getScriptSegment, getScriptIfLoaded. simpl.
        rewrite lookup_insert_eq. simpl. rewrite lookup_insert_eq. reflexivity.
      * intros [= <- <-]. rewrite E, D. reflexivity.
    + intros [= <- <-]. rewrite E, D. reflexivity.
  - destruct (scriptStore script) as [img|] eqn:St.
    + intros [= <- <-]. unfold getScriptSegment, getScriptIfLoaded. simpl.
      rewrite lookup_insert_eq. simpl. rewrite lookup_insert_eq. reflexivity.
    + intros [= <- <-]. rewrite E. reflexivity.
Qed.

Lemma getScriptSegment_load_script sm script sm1 seg :
  getScriptSegment_load sm script = (sm1, seg) ->
  seg ≠ 0 ->
  is_Some (getScriptIfLoaded sm1 seg).
Proof.
  unfold getScriptSegment_load.
  destruct (getScriptIfLoaded sm (getScriptSegment sm script)) as [scr|] eqn:E.
  - destruct (isMarkedAsDeleted scr) eqn:D.
    + destruct (scriptStore script) as [img|] eqn:St.
      * intros [= <- <-] _. unfold getScriptIfLoaded. simpl.
        rewrite lookup_insert_eq. eauto.
      * intros [= <- <-] Hne. contradiction.
    + intros [= <- <-] _. eauto.
  - destruct (scriptStore script) as [img|] eqn:St.
    + intros [= <- <-] _. unfold getScriptIfLoaded. simpl.
      rewrite lookup_insert_eq. eauto.
    + intros [= <- <-] Hne. contradiction.
Qed.

Lemma setSegMan_idem sm s : setSegMan sm (setSegMan sm s) = setSegMan sm s.
Proof. reflexivity. Qed.

Lemma validateExportFunc_0 scr :
  getExportsNr scr ≠ 0 -> ∃ offset, validateExportFunc scr 0 = Normal offset.
Proof.
  unfold validateExportFunc, getExportsNr. intros Hne.
  destruct (_exportTable scr) as [|e es]; [contradiction|].
  simpl length. rewrite decide_True by lia. simpl. eauto.
Qed.

Lemma kScriptID_eq_1 s a0 :
  kScriptID s [a0] = kScriptID_resolve s a0 (toUint16 a0) 0 1.
Proof. reflexivity. Qed.

Lemma kScriptID_eq_2 s a0 a1 :
  kScriptID s [a0; a1] = kScriptID_resolve s a0 (toUint16 a0) (toUint16 a1) 2.
Proof. reflexivity. Qed.

(** [kScriptID] with the script number alone, on an unresolved handle:
    it returns, and depends on the segment manager only through
    [getScriptSegment_load]. *)
Lemma kScriptID_one_arg s a0 sm1 seg :
  getSegment a0 = 0 ->
  getScriptSegment_load (_segMan s) (toUint16 a0) = (sm1, seg) ->
  ∃ r, kScriptID s [a0] = Normal (setSegMan sm1 s, r) ∧
       ∀ s2, getScriptSegment_load (_segMan s2) (toUint16 a0) = (sm1, seg) ->
             kScriptID s2 [a0] = Normal (setSegMan sm1 s2, r).
Proof.
  intros Hseg Hload.
  assert (Hgen : ∃ r, ∀ s2,
             getScriptSegment_load (_segMan s2) (toUint16 a0) = (sm1, seg) ->
             kScriptID s2 [a0] = Normal (setSegMan sm1 s2, r)).
  { destruct (Z.eqb_spec seg 0) as [Hz|Hnz].
    - exists NULL_REG. intros s2 Hload2.
      rewrite kScriptID_eq_1. unfold kScriptID_resolve.
      rewrite Hseg, Hload2. simpl negb. cbv iota.
      apply Z.eqb_eq in Hz. rewrite Hz. reflexivity.
    - destruct (getScriptSegment_load_script _ _ _ _ Hload Hnz) as [scr Hscr].
      apply Z.eqb_neq in Hnz.
      destruct (getExportsNr scr =? 0) eqn:He.
      + exists NULL_REG. intros s2 Hload2.
        rewrite kScriptID_eq_1. unfold kScriptID_resolve.
        rewrite Hseg, Hload2. simpl negb. cbv iota. rewrite Hnz.
        unfold getScript. rewrite Hscr. simpl deref. rewrite bind_Normal, He.
        reflexivity.
      + destruct (isHoyle3Amiga && (toUint16 a0 =? 601) && (1 =? 1)) eqn:Hw.
        * exists NULL_REG. intros s2 Hload2.
          rewrite kScriptID_eq_1. unfold kScriptID_resolve.
          rewrite Hseg, Hload2. simpl negb. cbv iota. rewrite Hnz.
          unfold getScript. rewrite Hscr. simpl deref.
          rewrite bind_Normal, He, Hw. reflexivity.
        * apply Z.eqb_neq in He.
          destruct (validateExportFunc_0 scr He) as [offset Hoff].
          apply Z.eqb_neq in He.
          exists (make_reg32 seg (uint32 (offset + getHeapOffset scr))).
          intros s2 Hload2.
          rewrite kScriptID_eq_1. unfold kScriptID_resolve.
          rewrite Hseg, Hload2. simpl negb. cbv iota. rewrite Hnz.
          unfold getScript. rewrite Hscr. simpl deref.
          rewrite bind_Normal, He, Hw, Hoff, bind_Normal. reflexivity. }
  destruct Hgen as [r Hr]. exists r. split; [apply Hr; exact Hload | exact Hr].
Qed.

(** C7: an argument with a non-null segment is returned as it is and the
    state is not touched; and kScriptID with a script number alone
    returns, and called again in the state it left returns the same
    address and leaves that state (so every locker count) as it is. *)
Theorem kScriptID_idempotent (s : EngineState) (a0 : reg_t) :
  (getSegment a0 ≠ 0 ->
     ∀ rest, kScriptID s (a0 :: rest) = Normal (s, a0)) ∧
  (getSegment a0 = 0 ->
     ∃ s1 r, kScriptID s [a0] = Normal (s1, r) ∧
             kScriptID s1 [a0] = Normal (s1, r)).
Proof.
  split.
  - intros Hseg rest. unfold kScriptID. rewrite argv_at_0, bind_Normal.
    apply Z.eqb_neq in Hseg.
    assert (Hidx : ∃ index,
               (if 1 <? argc_of (a0 :: rest)
                then a1 ← argv_at (a0 :: rest) 1; Normal (toUint16 a1)
                else Normal 0) = Normal index).
    { destruct rest as [|a1 rest]; [eexists; reflexivity|].
      replace (1 <? argc_of (a0 :: a1 :: rest)) with true; [eexists; reflexivity|].
      symmetry. apply Z.ltb_lt. unfold argc_of. simpl length. lia. }
    destruct Hidx as [index ->]. rewrite bind_Normal.
    unfold kScriptID_resolve. rewrite Hseg. reflexivity.
  - intros Hseg.
    destruct (getScriptSegment_load (_segMan s) (toUint16 a0)) as [sm1 seg] eqn:Hload.
    destruct (kScriptID_one_arg s a0 sm1 seg Hseg Hload) as (r & Hfirst & Hagain).
    exists (setSegMan sm1 s), r. split; [exact Hfirst|].
    rewrite (Hagain (setSegMan sm1 s)
               (getScriptSegment_load_idem _ _ _ _ Hload)).
    reflexivity.
Qed.

(** C6: for a script that loads to a segment without a dispatch table,
    kScriptID with the script number alone returns the null register,
    and with an export index as second argument it is a fatal error; for
    a script with a dispatch table, an export index as second argument
    that lies outside the table is a fatal error. *)
Theorem kScriptID_dispatch_table
    (s : EngineState) (a0 : reg_t) (sm1 : SegManager) (seg : Z) (scr : Script) :
  getSegment a0 = 0 ->
  getScriptSegment_load (_segMan s) (toUint16 a0) = (sm1, seg) ->
  seg ≠ 0 ->
  getScriptIfLoaded sm1 seg = Some scr ->
  (getExportsNr scr = 0 ->
     kScriptID s [a0] = Normal (setSegMan sm1 s, NULL_REG) ∧
     ∀ a1, kScriptID s [a0; a1] = Fatal ErrNoDispatchTable) ∧
  (getExportsNr scr ≠ 0 ->
     ∀ a1, getExportsNr scr <= toUint16 a1 ->
           kScriptID s [a0; a1] = Fatal ErrInvalidExport).
Proof.
  intros Hseg Hload Hnz Hscr.
  apply Z.eqb_neq in Hnz.
  assert (Hres : ∀ index argc,
             kScriptID_resolve s a0 (toUint16 a0) index argc =
             if getExportsNr scr =? 0
             then if argc =? 2 then Fatal ErrNoDispatchTable
                  else Normal (setSegMan sm1 s, NULL_REG)
             else if isHoyle3Amiga && (toUint16 a0 =? 601) && (argc =? 1)
                  then Normal (setSegMan sm1 s, NULL_REG)
                  else offset ← validateExportFunc scr index;
                       Normal (setSegMan sm1 s,
                               make_reg32 seg (uint32 (offset + getHeapOffset scr)))).
  { intros index argc. unfold kScriptID_resolve.
    rewrite Hseg, Hload. simpl negb. cbv iota. rewrite Hnz.
    unfold getScript. rewrite Hscr. reflexivity. }
  split.
  - intros He. apply Z.eqb_eq in He. split.
    + rewrite kScriptID_eq_1, Hres, He. reflexivity.
    + intros a1. rewrite kScriptID_eq_2, Hres, He. reflexivity.
  - intros He a1 Hout. apply Z.eqb_neq in He.
    rewrite kScriptID_eq_2, Hres, He.
    change (2 =? 1) with false. rewrite andb_false_r.
    unfold validateExportFunc. rewrite decide_False by lia. reflexivity.
Qed.

(** *** Lock counts *)

Lemma lockCount_insert (rm : ResourceManager) id res id' :
  lockCount (<[id := res]> rm) id' =
  if decide (id = id') then res_lockers res else lockCount rm id'.
Proof.
  unfold lockCount. rewrite lookup_insert. destruct (decide (id = id')); reflexivity.
Qed.

Lemma lockCount_evict (rm : ResourceManager) id :
  eviction_policy ->
  lockCount (freeOldResources rm) id = lockCount rm id.
Proof.
  intros Hev. unfold lockCount.
  destruct (freeOldResources rm !! id) as [res|] eqn:E1.
  - destruct (Hev rm id res) as [_ Hsub]. rewrite (Hsub E1). reflexivity.
  - destruct (rm !! id) as [res|] eqn:E2; [|reflexivity].
    destruct (decide (res_lockers res = 0)) as [Hz|Hnz]; [congruence|].
    destruct (Hev rm id res) as [Hkeep _]. specialize (Hkeep E2 Hnz). congruence.
Qed.

Lemma lockCount_unlockResource (rm : ResourceManager) id id' :
  lockCount (unlockResource id rm) id' =
  if decide (id = id')
  then if 0 <? lockCount rm id then lockCount rm id - 1 else lockCount rm id
  else lockCount rm id'.
Proof.
  unfold unlockResource.
  destruct (rm !! id) as [res|] eqn:E.
  - unfold isLocked. destruct (0 <? res_lockers res) eqn:L.
    + rewrite lockCount_insert. destruct (decide (id = id')); [|reflexivity].
      unfold lockCount. rewrite E, L. reflexivity.
    + destruct (decide (id = id')) as [<-|]; [|reflexivity].
      unfold lockCount. rewrite E, L. reflexivity.
  - destruct (decide (id = id')) as [<-|]; [|reflexivity].
    unfold lockCount. rewrite E. reflexivity.
Qed.

Lemma findResource_lock_counts (rm : ResourceManager) id :
  eviction_policy ->
  (rm !! id = None ∧ findResource id true rm = (rm, None)) ∨
  (∀ id', lockCount (findResource id true rm).1 id' =
          if decide (id = id') then lockCount rm id + 1 else lockCount rm id').
Proof.
  intros Hev. unfold findResource.
  destruct (rm !! id) as [res|] eqn:E.
  - right. intros id'. simpl. rewrite lockCount_evict, lockCount_insert by assumption.
    destruct (decide (id = id')); [|reflexivity].
    unfold lockCount. rewrite E. reflexivity.
  - destruct (fetch id) as [bytes|].
    + right. intros id'. simpl.
      rewrite lockCount_evict, !lockCount_insert by assumption.
      destruct (decide (id = id')); [|reflexivity].
      unfold lockCount. rewrite E. reflexivity.
    + left. split; reflexivity.
Qed.

Lemma findResource_nolock_counts (rm : ResourceManager) id id' :
  eviction_policy ->
  lockCount (findResource id false rm).1 id' = lockCount rm id'.
Proof.
  intros Hev. unfold findResource.
  destruct (rm !! id) as [res|] eqn:E.
  - simpl. apply lockCount_evict; assumption.
  - destruct (fetch id) as [bytes|]; [|reflexivity].
    simpl. rewrite lockCount_evict, lockCount_insert by assumption.
    destruct (decide (id = id')) as [<-|]; [|reflexivity].
    unfold lockCount. rewrite E. reflexivity.
Qed.

Lemma unlockAll_cons id ids rm :
  unlockAll (id :: ids) rm = unlockAll ids (unlockResource id rm).
Proof.
  unfold unlockAll. simpl. f_equal.
  unfold testResource, unlockResource.
  destruct (rm !! id) as [res|]; [|reflexivity].
  destruct (isLocked res); reflexivity.
Qed.

Lemma lockCount_unlockAll ids : ∀ (rm : ResourceManager) id',
  NoDup ids ->
  lockCount (unlockAll ids rm) id' =
  if decide (id' ∈ ids)
  then if 0 <? lockCount rm id' then lockCount rm id' - 1 else lockCount rm id'
  else lockCount rm id'.
Proof.
  induction ids as [|id ids IH]; intros rm id' Hnd.
  - rewrite decide_False; [reflexivity|]. apply not_elem_of_nil.
  - apply NoDup_cons in Hnd as [Hnotin Hnd].
    rewrite unlockAll_cons, IH by assumption.
    rewrite !lockCount_unlockResource.
    destruct (decide (id = id')) as [<-|Hne].
    + rewrite (decide_False (P := id ∈ ids)) by assumption.
      rewrite (decide_True (P := id ∈ id :: ids)) by (apply elem_of_cons; auto).
      reflexivity.
    + destruct (decide (id' ∈ ids)) as [Hin|Hnin].
      * rewrite (decide_True (P := id' ∈ id :: ids)) by (apply elem_of_cons; auto).
        reflexivity.
      * rewrite (decide_False (P := id' ∈ id :: ids)); [reflexivity|].
        rewrite elem_of_cons. intros [->|?]; contradiction.
Qed.

Lemma NoDup_listResources (rm : ResourceManager) type : NoDup (listResources rm type).
Proof. unfold listResources. apply NoDup_filter, NoDup_fst_map_to_list. Qed.

Lemma elem_of_listResources (rm : ResourceManager) type id :
  id ∈ listResources rm type ↔ getType id = type ∧ is_Some (rm !! id).
Proof.
  unfold listResources. rewrite list_elem_of_filter, list_elem_of_fmap.
  split.
  - intros [Ht ([id0 res] & -> & Hin)]. split; [exact Ht|].
    apply elem_of_map_to_list in Hin. simpl. eauto.
  - intros [Ht [res Hres]]. split; [exact Ht|].
    exists (id, res). split; [reflexivity|]. apply elem_of_map_to_list. exact Hres.
Qed.

(** The lock counts after the loop of lines 113-119. *)
Lemma lockCount_unlock_type (rm : ResourceManager) type id :
  lockCount (unlockAll (listResources rm type) rm) id =
  if decide (getType id = type)
  then if 0 <? lockCount rm id then lockCount rm id - 1 else lockCount rm id
  else lockCount rm id.
Proof.
  rewrite lockCount_unlockAll by apply NoDup_listResources.
  destruct (decide (id ∈ listResources rm type)) as [Hin|Hnin].
  - apply elem_of_listResources in Hin as [Ht _].
    rewrite decide_True by assumption. reflexivity.
  - destruct (decide (getType id = type)) as [Ht|]; [|reflexivity].
    assert (Hnone : rm !! id = None).
    { destruct (rm !! id) as [res|] eqn:E; [|reflexivity].
      exfalso. apply Hnin, elem_of_listResources. eauto. }
    unfold lockCount. rewrite Hnone. reflexivity.
Qed.

Lemma findResource_null (rm : ResourceManager) id lock :
  (findResource id lock rm).2 = None -> rm !! id = None.
Proof.
  unfold findResource.
  destruct (rm !! id) as [res|]; [|reflexivity].
  destruct lock; discriminate.
Qed.

(** The two early returns of [kLock] leave the resource manager alone. *)
Lemma kLock_apply_early g s type id lock :
  hasSci3Audio && bool_decide (type = kResourceTypeAudio) = true ∨
  (getSciVersion =? SCI_VERSION_1_1) &&
    (bool_decide (type = kResourceTypeAudio36) ||
     bool_decide (type = kResourceTypeSync36)) = true ->
  ∃ g1, kLock_apply g s type id lock = Normal (g1, r_acc s) ∧
        getResMan g1 = getResMan g.
Proof.
  intros Hearly. unfold kLock_apply.
  destruct (hasSci3Audio && bool_decide (type = kResourceTypeAudio)).
  - eexists. split; reflexivity.
  - destruct Hearly as [Hb|Hb]; [discriminate|]. rewrite Hb.
    eexists. split; reflexivity.
Qed.

Lemma kLock_apply_lock_counts g s type id :
  eviction_policy ->
  hasSci3Audio && bool_decide (type = kResourceTypeAudio) = false ->
  (getSciVersion =? SCI_VERSION_1_1) &&
    (bool_decide (type = kResourceTypeAudio36) ||
     bool_decide (type = kResourceTypeSync36)) = false ->
  ∃ g1, kLock_apply g s type id true = Normal (g1, r_acc s) ∧
        ((getResMan g !! id = None ∧ getResMan g1 = getResMan g) ∨
         (∀ id', lockCount (getResMan g1) id' =
                 if decide (id = id')
                 then lockCount (getResMan g) id + 1
                 else lockCount (getResMan g) id')).
Proof.
  intros Hev Hb1 Hb2. unfold kLock_apply. rewrite Hb1, Hb2.
  eexists. split; [reflexivity|]. simpl.
  destruct (findResource_lock_counts (getResMan g) id Hev) as [[Hnone Heq]|Hcnt].
  - left. rewrite Heq. split; [exact Hnone | reflexivity].
  - right. exact Hcnt.
Qed.

Lemma kLock_apply_unlock_counts g s type id :
  eviction_policy ->
  getType id = type ->
  hasSci3Audio && bool_decide (type = kResourceTypeAudio) = false ->
  (getSciVersion =? SCI_VERSION_1_1) &&
    (bool_decide (type = kResourceTypeAudio36) ||
     bool_decide (type = kResourceTypeSync36)) = false ->
  ∃ g1, kLock_apply g s type id false = Normal (g1, r_acc s) ∧
        lockCount (getResMan g1) id =
          (if 0 <? lockCount (getResMan g) id
           then lockCount (getResMan g) id - 1
           else lockCount (getResMan g) id) ∧
        (∀ id', lockCount (getResMan g1) id' = lockCount (getResMan g) id' ∨
                (0 < lockCount (getResMan g) id' ∧
                 lockCount (getResMan g1) id' = lockCount (getResMan g) id' - 1)) ∧
        ((getSciVersion <? SCI_VERSION_2) && (getNumber id =? 0xFFFF) = false ->
         ∀ id', id' ≠ id ->
                lockCount (getResMan g1) id' = lockCount (getResMan g) id').
Proof.
  intros Hev Htype Hb1 Hb2. unfold kLock_apply. rewrite Hb1, Hb2.
  eexists. split; [reflexivity|]. simpl.
  destruct ((getSciVersion <? SCI_VERSION_2) && (getNumber id =? 65535)) eqn:Hsweep.
  - split; [|split].
    + rewrite lockCount_unlock_type, decide_True by assumption. reflexivity.
    + intros id'. rewrite lockCount_unlock_type.
      destruct (decide (getType id' = type)); [|left; reflexivity].
      destruct (0 <? lockCount (getResMan g) id') eqn:L; [|left; reflexivity].
      right. apply Z.ltb_lt in L. split; [exact L | reflexivity].
    + discriminate.
  - pose proof (findResource_nolock_counts (getResMan g) id) as Hfind.
    pose proof (findResource_null (getResMan g) id false) as Hnull.
    destruct (findResource id false (getResMan g)) as [rm1 which].
    simpl in Hfind, Hnull.
    assert (Hres : ∀ id',
               lockCount (match which with
                          | Some _ => unlockResource id rm1
                          | None => rm1
                          end) id' =
               if decide (id = id')
               then if 0 <? lockCount (getResMan g) id
                    then lockCount (getResMan g) id - 1
                    else lockCount (getResMan g) id
               else lockCount (getResMan g) id').
    { intros id'. destruct which as [res|].
      - rewrite lockCount_unlockResource, !Hfind by assumption. reflexivity.
      - rewrite Hfind by assumption.
        destruct (decide (id = id')) as [<-|]; [|reflexivity].
        unfold lockCount. rewrite (Hnull eq_refl). reflexivity. }
    split; [|split].
    + rewrite Hres, decide_True by reflexivity. reflexivity.
    + intros id'. rewrite Hres.
      destruct (decide (id = id')) as [<-|]; [|left; reflexivity].
      destruct (0 <? lockCount (getResMan g) id) eqn:L; [|left; reflexivity].
      right. apply Z.ltb_lt in L. split; [exact L | reflexivity].
    + intros _ id' Hne. rewrite Hres, decide_False by congruence. reflexivity.
Qed.

(** C8: locking a resource and then unlocking it once brings its lock
    count back to what it was; and an unlock of a resource whose lock
    count is zero (a resource that is not held has count zero) leaves
    that count at zero, changes no other count unless the call is the
    unlock-all request of the versions before SCI2, and never makes any
    count negative. *)
Theorem kLock_lock_unlock_roundtrip
    (g : SciEngine) (s : EngineState) (a0 a1 : reg_t) (restT restF : list reg_t) :
  eviction_policy ->
  kLock_flag restT = true ->
  kLock_flag restF = false ->
  let R := kLock_id a0 a1 in
  0 <= lockCount (getResMan g) R ->
  (∃ g1 g2,
     kLock g s (a0 :: a1 :: restT) = Normal (g1, r_acc s) ∧
     kLock g1 s (a0 :: a1 :: restF) = Normal (g2, r_acc s) ∧
     lockCount (getResMan g2) R = lockCount (getResMan g) R) ∧
  (∀ g0, lockCount (getResMan g0) R = 0 ->
     ∃ g3,
       kLock g0 s (a0 :: a1 :: restF) = Normal (g3, r_acc s) ∧
       lockCount (getResMan g3) R = 0 ∧
       (∀ id, 0 <= lockCount (getResMan g0) id -> 0 <= lockCount (getResMan g3) id) ∧
       ((getSciVersion <? SCI_VERSION_2) && (getNumber R =? 0xFFFF) = false ->
        ∀ id, lockCount (getResMan g3) id = lockCount (getResMan g0) id)).
Proof.
  intros Hev HT HF R Hnonneg.
  set (type := kLock_type a0 a1).
  assert (HtypeR : getType R = type) by reflexivity.
  destruct (hasSci3Audio && bool_decide (type = kResourceTypeAudio)) eqn:Hb1;
    [|destruct ((getSciVersion =? SCI_VERSION_1_1) &&
                (bool_decide (type = kResourceTypeAudio36) ||
                 bool_decide (type = kResourceTypeSync36))) eqn:Hb2].
  1,2: (split;
    [ destruct (kLock_apply_early g s type R true) as (g1 & Hk1 & Hr1); [auto|];
      destruct (kLock_apply_early g1 s type R false) as (g2 & Hk2 & Hr2); [auto|];
      exists g1, g2; rewrite !kLock_eq, HT, HF;
      split; [exact Hk1|]; split; [exact Hk2|]; rewrite Hr2, Hr1; reflexivity
    | intros g0 Hzero;
      destruct (kLock_apply_early g0 s type R false) as (g3 & Hk3 & Hr3); [auto|];
      exists g3; rewrite kLock_eq, HF; split; [exact Hk3|]; rewrite Hr3;
      split; [exact Hzero|]; split; [auto|]; intros _ id; reflexivity ]).
  split.
  - destruct (kLock_apply_lock_counts g s type R Hev Hb1 Hb2) as (g1 & Hk1 & Hc1).
    destruct (kLock_apply_unlock_counts g1 s type R Hev HtypeR Hb1 Hb2)
      as (g2 & Hk2 & Hc2 & _).
    exists g1, g2. rewrite !kLock_eq, HT, HF.
    split; [exact Hk1|]. split; [exact Hk2|]. rewrite Hc2.
    destruct Hc1 as [[Hnone Hsame]|Hc1].
    + rewrite Hsame. unfold lockCount. rewrite Hnone. reflexivity.
    + rewrite Hc1, decide_True by reflexivity.
      replace (0 <? lockCount (getResMan g) R + 1) with true; [lia|].
      symmetry. apply Z.ltb_lt. lia.
  - intros g0 Hzero.
    destruct (kLock_apply_unlock_counts g0 s type R Hev HtypeR Hb1 Hb2)
      as (g3 & Hk3 & Hc3 & Hall & Hothers).
    exists g3. rewrite kLock_eq, HF. split; [exact Hk3|].
    assert (HR : lockCount (getResMan g3) R = 0).
    { rewrite Hc3, Hzero. reflexivity. }
    split; [exact HR|]. split.
    + intros id Hid. destruct (Hall id) as [->|[Hpos ->]]; lia.
    + intros Hns id. destruct (decide (id = R)) as [->|Hne].
      * rewrite HR, Hzero. reflexivity.
      * apply Hothers; assumption.
Qed.

(** *** Allocation in the heap *)

Lemma nextKey_above {A} (from : Z) (m : gmap Z A) :
  from <= nextKey from m ∧ ∀ k x, m !! k = Some x -> k < nextKey from m.
Proof.
  unfold nextKey.
  apply (map_fold_weak_ind
           (fun r (m : gmap Z A) => from <= r ∧ ∀ k x, m !! k = Some x -> k < r)).
  - split; [lia|]. intros k x. rewrite lookup_empty. discriminate.
  - intros i x m0 r _ [IH1 IH2]. split; [lia|].
    intros k y. rewrite lookup_insert.
    destruct (decide (i = k)) as [->|_].
    + intros _. lia.
    + intros Hk. specialize (IH2 _ _ Hk). lia.
Qed.

Lemma nextKey_fresh {A} (from : Z) (m : gmap Z A) : m !! nextKey from m = None.
Proof.
  destruct (m !! nextKey from m) as [x|] eqn:E; [|reflexivity].
  destruct (nextKey_above from m) as [_ Habove].
  specialize (Habove _ _ E). lia.
Qed.

(** What a successful [allocateClone] does: the address it returns lies
    in the clone table, at a slot that held no object, and the slot now
    holds a default-constructed object; nothing else changes. *)
Lemma allocateClone_Some sm sm1 A :
  allocateClone sm = Some (sm1, A) ->
  ∃ table : gmap Z Clone,
    getScriptIfLoaded sm (getSegment A) = None ∧
    (∀ X, getSegment X = getSegment A -> getObject sm X = table !! getOffset X) ∧
    table !! getOffset A = None ∧
    _heap sm1 =
      <[getSegment A := SegClones (<[getOffset A := emptyObject]> table)]> (_heap sm).
Proof.
  unfold allocateClone.
  destruct (decide (_clonesSegId sm = 0)) as [Hz|Hnz]; simpl.
  - destruct (decide _) as [[Hs Ho]|]; [|discriminate].
    intros [= <- <-]. simpl. rewrite <- Hs, <- Ho.
    exists ∅. pose proof (nextKey_fresh 1 (_heap sm)) as Hfresh.
    split; [unfold getScriptIfLoaded; rewrite Hfresh; reflexivity|].
    split; [|split; [apply nextKey_fresh | reflexivity]].
    intros X HX. unfold getObject. rewrite HX, Hfresh, lookup_empty. reflexivity.
  - destruct (_heap sm !! _clonesSegId sm) as [[scr|table|h]|] eqn:E;
      simpl; try discriminate.
    destruct (decide _) as [[Hs Ho]|]; [|discriminate].
    intros [= <- <-]. simpl. rewrite <- Hs, <- Ho.
    exists table.
    split; [unfold getScriptIfLoaded; rewrite E; reflexivity|].
    split; [|split; [apply nextKey_fresh | reflexivity]].
    intros X HX. unfold getObject. rewrite HX, E. reflexivity.
Qed.

(** *** kClone *)

Lemma getPos_kClone_copy p info : getPos (kClone_copy p info) = getPos p.
Proof. unfold kClone_copy. destruct (isClass p); reflexivity. Qed.

Lemma getSpeciesSelector_kClone_copy p info :
  getSpeciesSelector (kClone_copy p info) = getPos p.
Proof. unfold kClone_copy. destruct (isClass p); reflexivity. Qed.

Lemma getSuperClassSelector_kClone_copy p info :
  getSuperClassSelector (kClone_copy p info) =
  if isClass p then getPos p else getSuperClassSelector p.
Proof. unfold kClone_copy. destruct (isClass p); reflexivity. Qed.

Lemma getInfoSelector_kClone_copy p info :
  getInfoSelector (kClone_copy p info) =
  make_reg 0 (Z.lor (uint16 (Z.land info (Z.lnot kInfoFlagClass))) kInfoFlagClone).
Proof. unfold kClone_copy. destruct (isClass p); reflexivity. Qed.

Lemma variables_kClone_copy p info : _variables (kClone_copy p info) = _variables p.
Proof. unfold kClone_copy. destruct (isClass p); reflexivity. Qed.

(** What [kClone] does on a parent that resolves to an object, when the
    allocation succeeds and the parent's recorded position lies in a
    script segment. *)
Lemma kClone_spec s P rest p sm1 A scr :
  getObject (_segMan s) P = Some p ->
  allocateClone (_segMan s) = Some (sm1, A) ->
  getScriptIfLoaded (_segMan s) (getSegment (getPos p)) = Some scr ->
  ∃ s',
    kClone s (P :: rest) = Normal (s', A) ∧
    A ≠ P ∧
    getObject (_segMan s) A = None ∧
    getObject (_segMan s') A =
      Some (kClone_copy p (toUint16 (getInfoSelector p))) ∧
    getScriptIfLoaded (_segMan s') (getSegment (getPos p)) =
      Some (setLockers (getLockers scr + 2) scr) ∧
    (∀ seg, seg ≠ getSegment (getPos p) ->
            getScriptIfLoaded (_segMan s') seg = getScriptIfLoaded (_segMan s) seg) ∧
    (∀ X, X ≠ A -> getObject (_segMan s') X = getObject (_segMan s) X).
Proof.
  intros Hp Halloc Hscr.
  destruct (allocateClone_Some _ _ _ Halloc) as (table & HnoScr & Htab & Hfree & Hheap1).
  set (sm := _segMan s) in *.
  set (segA := getSegment A) in *. set (offA := getOffset A) in *.
  set (segP := getSegment (getPos p)) in *.
  assert (HfreshA : getObject sm A = None).
  { rewrite (Htab A eq_refl). exact Hfree. }
  assert (HAP : A ≠ P) by congruence.
  assert (Hsegs : segA ≠ segP) by congruence.
  assert (HscrP : _heap sm !! segP = Some (SegScript scr)).
  { unfold getScriptIfLoaded in Hscr.
    destruct (_heap sm !! segP) as [[?|?|?]|]; congruence. }
  assert (Hframe1 : ∀ X, X ≠ A -> getObject sm1 X = getObject sm X).
  { intros X HX. unfold getObject at 1. rewrite Hheap1.
    destruct (decide (getSegment X = segA)) as [HXs|HXs].
    - rewrite HXs, lookup_insert_eq, (Htab X HXs).
      apply lookup_insert_ne. intros Ho. apply HX.
      destruct X, A; simpl in *; subst; reflexivity.
    - rewrite lookup_insert_ne by congruence. reflexivity. }
  set (info := toUint16 (getInfoSelector p)).
  set (cloneObj := kClone_copy p info).
  set (table2 := <[offA := cloneObj]> (<[offA := emptyObject]> table)).
  set (heap2 := <[segA := SegClones table2]> (_heap sm1)).
  set (heap4 := <[segP := SegScript (incrementLockers (incrementLockers scr))]>
                  (<[segP := SegScript (incrementLockers scr)]> heap2)).
  assert (Hk : kClone s (P :: rest) =
               Normal (setSegMan (setHeap heap4 sm1) s, A)).
  { unfold kClone. rewrite argv_at_0, bind_Normal. fold sm. rewrite Hp, Halloc.
    fold info.
    replace (if Z.land info kInfoFlagClone =? 0
             then Normal p
             else deref ErrBadPointer (getObject sm1 P)) with (Normal p).
    2:{ destruct (Z.land info kInfoFlagClone =? 0); [reflexivity|].
        rewrite Hframe1 by congruence. rewrite Hp. reflexivity. }
    rewrite bind_Normal. fold cloneObj.
    replace (getPos cloneObj) with (getPos p)
      by (symmetry; apply getPos_kClone_copy).
    fold segP.
    assert (Hput : putObject A cloneObj sm1 = setHeap heap2 sm1).
    { unfold putObject. fold segA offA. rewrite Hheap1 at 1.
      rewrite lookup_insert_eq. reflexivity. }
    rewrite Hput.
    assert (Hget2 : getScript (setHeap heap2 sm1) segP = Normal scr).
    { unfold getScript, getScriptIfLoaded. simpl. unfold heap2.
      rewrite lookup_insert_ne by assumption.
      rewrite Hheap1, lookup_insert_ne by assumption.
      rewrite HscrP. reflexivity. }
    rewrite Hget2, bind_Normal.
    assert (Hget3 : getScript (putScript segP (incrementLockers scr) (setHeap heap2 sm1)) segP
                    = Normal (incrementLockers scr)).
    { unfold getScript, getScriptIfLoaded, putScript. simpl.
      rewrite lookup_insert_eq. reflexivity. }
    rewrite Hget3, bind_Normal. reflexivity. }
  exists (setSegMan (setHeap heap4 sm1) s).
  split; [exact Hk|]. split; [exact HAP|]. split; [exact HfreshA|].
  assert (Hheap4 : ∀ seg, seg ≠ segP -> heap4 !! seg = heap2 !! seg).
  { intros seg Hseg. unfold heap4. rewrite !lookup_insert_ne by congruence.
    reflexivity. }
  split; [|split; [|split]].
  - unfold getObject. simpl. fold segA offA.
    rewrite Hheap4 by assumption. unfold heap2. rewrite lookup_insert_eq.
    unfold table2. apply lookup_insert_eq.
  - unfold getScriptIfLoaded. simpl. unfold heap4. rewrite lookup_insert_eq.
    f_equal. unfold incrementLockers, setLockers. simpl. f_equal. lia.
  - intros seg Hseg. unfold getScriptIfLoaded. simpl.
    rewrite Hheap4 by assumption. unfold heap2.
    destruct (decide (seg = segA)) as [->|HsegA].
    + rewrite lookup_insert_eq. fold (getScriptIfLoaded sm segA).
      rewrite HnoScr. reflexivity.
    + rewrite lookup_insert_ne by congruence.
      rewrite Hheap1, lookup_insert_ne by congruence. reflexivity.
  - intros X HX. rewrite <- (Hframe1 X HX). unfold getObject. simpl.
    destruct (decide (getSegment X = segP)) as [HXs|HXs].
    + rewrite HXs. unfold heap4. rewrite lookup_insert_eq.
      rewrite Hheap1, lookup_insert_ne by assumption. rewrite HscrP. reflexivity.
    + rewrite Hheap4 by assumption. unfold heap2.
      destruct (decide (getSegment X = segA)) as [HXa|HXa].
      * rewrite HXa, lookup_insert_eq, Hheap1, lookup_insert_eq.
        unfold table2. apply lookup_insert_ne. intros Ho. apply HX.
        destruct X, A; simpl in *; subst; reflexivity.
      * rewrite lookup_insert_ne by congruence. reflexivity.
Qed.

(** The info selector [kClone] writes: its Clone bit is set when the flag
    fits in 16 bits, and its Class bit is clear when the two flags share
    no bit. *)
Lemma kClone_info_bits info :
  uint16 kInfoFlagClone = kInfoFlagClone ->
  Z.land kInfoFlagClone kInfoFlagClass = 0 ->
  let info' :=
    toUint16 (make_reg 0 (Z.lor (uint16 (Z.land info (Z.lnot kInfoFlagClass)))
                                kInfoFlagClone)) in
  Z.land info' kInfoFlagClone = kInfoFlagClone ∧
  Z.land info' kInfoFlagClass = 0.
Proof.
  intros Hfit Hdisj info'. unfold info', toUint16, make_reg. simpl getOffset.
  unfold uint16 in *.
  split; apply Z.bits_inj'; intros n Hn;
    apply (f_equal (fun z => Z.testbit z n)) in Hfit;
    apply (f_equal (fun z => Z.testbit z n)) in Hdisj;
    rewrite ?Z.bits_0 in *;
    rewrite ?Z.land_spec, ?Z.lor_spec, ?Z.land_spec, ?Z.lnot_spec in * by assumption;
    destruct (Z.testbit kInfoFlagClone n), (Z.testbit kInfoFlagClass n),
             (Z.testbit 65535 n), (Z.testbit info n);
    simpl in *; congruence.
Qed.

(** C1, as the code has it: for a class object C that resolves to an
    object recorded at its own address in a script segment, kClone (when
    the allocation succeeds) returns an address A that held no object
    and differs from C; the new object's species and superclass are both
    C, its Clone bit is set and its Class bit is clear; the locker count
    of C's script segment has grown by 2 (both increments land there);
    A's segment is the clone table, which holds no script and so no
    locker count; and no other segment's script changes. *)
Theorem kClone_of_class
    (s : EngineState) (C : reg_t) (rest : list reg_t)
    (p : Object) (sm1 : SegManager) (A : reg_t) (scr : Script) :
  uint16 kInfoFlagClone = kInfoFlagClone ->
  Z.land kInfoFlagClone kInfoFlagClass = 0 ->
  getObject (_segMan s) C = Some p ->
  isClass p = true ->
  getPos p = C ->
  getScriptIfLoaded (_segMan s) (getSegment C) = Some scr ->
  allocateClone (_segMan s) = Some (sm1, A) ->
  ∃ s' o,
    kClone s (C :: rest) = Normal (s', A) ∧
    A ≠ C ∧
    getObject (_segMan s) A = None ∧
    getObject (_segMan s') A = Some o ∧
    getSpeciesSelector o = C ∧
    getSuperClassSelector o = C ∧
    Z.land (toUint16 (getInfoSelector o)) kInfoFlagClone = kInfoFlagClone ∧
    Z.land (toUint16 (getInfoSelector o)) kInfoFlagClass = 0 ∧
    getScriptIfLoaded (_segMan s') (getSegment C) =
      Some (setLockers (getLockers scr + 2) scr) ∧
    getScriptIfLoaded (_segMan s') (getSegment A) = None ∧
    (∀ seg, seg ≠ getSegment C ->
            getScriptIfLoaded (_segMan s') seg = getScriptIfLoaded (_segMan s) seg).
Proof.
  intros Hfit Hdisj Hp Hclass Hpos Hscr Halloc.
  rewrite <- Hpos in Hscr.
  destruct (kClone_spec s C rest p sm1 A scr Hp Halloc Hscr)
    as (s' & Hk & HAC & Hfresh & Hobj & Hlock & Hscripts & _).
  destruct (allocateClone_Some _ _ _ Halloc) as (_ & HnoScr & _).
  rewrite Hpos in Hscr, Hlock, Hscripts.
  set (info := toUint16 (getInfoSelector p)) in *.
  destruct (kClone_info_bits info Hfit Hdisj) as [Hclone Hclear].
  exists s', (kClone_copy p info).
  rewrite getSpeciesSelector_kClone_copy, getSuperClassSelector_kClone_copy,
    getInfoSelector_kClone_copy, Hclass, Hpos.
  repeat split; try assumption.
  rewrite Hscripts; [exact HnoScr|]. congruence.
Qed.

(** C3: when the parent is a clone and not a class, the new clone's
    superclass address is the parent's superclass address, as copied;
    it is not replaced by the parent's address. *)
Theorem kClone_of_clone_keeps_superclass
    (s : EngineState) (P : reg_t) (rest : list reg_t)
    (p : Object) (sm1 : SegManager) (A : reg_t) (scr : Script) :
  getObject (_segMan s) P = Some p ->
  Z.land (toUint16 (getInfoSelector p)) kInfoFlagClone ≠ 0 ->
  isClass p = false ->
  getScriptIfLoaded (_segMan s) (getSegment (getPos p)) = Some scr ->
  allocateClone (_segMan s) = Some (sm1, A) ->
  ∃ s' o,
    kClone s (P :: rest) = Normal (s', A) ∧
    getObject (_segMan s') A = Some o ∧
    getSuperClassSelector o = getSuperClassSelector p ∧
    (getSuperClassSelector p ≠ P -> getSuperClassSelector o ≠ P).
Proof.
  intros Hp _ Hclass Hscr Halloc.
  destruct (kClone_spec s P rest p sm1 A scr Hp Halloc Hscr)
    as (s' & Hk & _ & _ & Hobj & _).
  exists s', (kClone_copy p (toUint16 (getInfoSelector p))).
  rewrite getSuperClassSelector_kClone_copy, Hclass.
  split; [exact Hk|]. split; [exact Hobj|]. split; [reflexivity|].
  intros Hne. exact Hne.
Qed.

(** ** Further properties of the kernel calls *)

(** *** kLoad *)

Lemma uint16_small x : 0 <= x < 65536 -> uint16 x = x.
Proof.
  intros Hx. unfold uint16. change 65535 with (Z.ones 16).
  rewrite Z.land_ones by lia. apply Z.mod_small. lia.
Qed.

Lemma uint16_idem x : uint16 (uint16 x) = uint16 x.
Proof. unfold uint16. rewrite <- Z.land_assoc. reflexivity. Qed.

Lemma toUint16_range r : 0 <= toUint16 r < 65536.
Proof.
  unfold toUint16, uint16. change 65535 with (Z.ones 16).
  rewrite Z.land_ones by lia. apply Z.mod_pos_bound. lia.
Qed.

Lemma lor_shiftl_11 v n :
  0 <= v -> 0 <= n < 2048 -> Z.lor (Z.shiftl v 11) n = v * 2048 + n.
Proof.
  intros Hv Hn.
  assert (Hdisj : Z.land (Z.shiftl v 11) n = 0).
  { apply Z.bits_inj'. intros i Hi. rewrite Z.land_spec, Z.bits_0.
    destruct (Z.lt_ge_cases i 11) as [Hlt|Hge].
    - rewrite Z.shiftl_spec_low by assumption. reflexivity.
    - replace (Z.testbit n i) with false; [apply andb_false_r|].
      symmetry. destruct (Z.eq_dec n 0) as [->|Hnz]; [apply Z.bits_0|].
      apply Z.bits_above_log2; [lia|].
      apply Z.log2_lt_pow2; [lia|].
      apply Z.lt_le_trans with (2 ^ 11); [simpl; lia|].
      apply Z.pow_le_mono_r; lia. }
  rewrite <- Z.lxor_lor by assumption.
  rewrite <- Z.add_nocarry_lxor by assumption.
  rewrite Z.shiftl_mul_pow2 by lia. reflexivity.
Qed.

(** X1: for a resource that is not hunk memory, kLoad leaves the state as
    it is and returns a handle in segment 0 that does not depend on the
    numbers after the first; when the type's value is below 32 and the
    number below 2048, the handle's offset holds the type in its bits
    11-15 and the number in its bits 0-10. *)
Theorem kLoad_handle_roundtrip
    (s : EngineState) (a0 a1 : reg_t) :
  let restype := convertResType (toUint16 a0) in
  restype ≠ kResourceTypeMemory ->
  ∃ handle,
    (∀ rest, kLoad s (a0 :: a1 :: rest) = Normal (s, handle)) ∧
    getSegment handle = 0 ∧
    (0 <= ResourceType_value restype < 32 ->
     toUint16 a1 < 2048 ->
     Z.shiftr (getOffset handle) 11 = ResourceType_value restype ∧
     Z.land (getOffset handle) 0x7FF = toUint16 a1).
Proof.
  intros restype Hmem.
  pose proof (toUint16_range a1) as Hrange.
  exists (kLoad_handle restype (toUint16 a1)). split; [|split].
  - intros rest. unfold kLoad.
    rewrite argv_at_0, bind_Normal, argv_at_1, bind_Normal.
    fold restype. rewrite bool_decide_eq_false_2 by assumption. reflexivity.
  - reflexivity.
  - intros Hval Hnr.
    unfold kLoad_handle, make_reg. simpl getOffset.
    rewrite lor_shiftl_11 by lia.
    rewrite (uint16_small (_ * 2048 + _)) by lia.
    split.
    + rewrite Z.shiftr_div_pow2 by lia. change (2 ^ 11) with 2048.
      symmetry. apply Z.div_unique with (toUint16 a1); lia.
    + change 2047 with (Z.ones 11). rewrite Z.land_ones by lia.
      change (2 ^ 11) with 2048.
      symmetry. apply Z.mod_unique with (ResourceType_value restype); lia.
Qed.

Lemma lor_odd_1 v : Z.odd v = true -> Z.lor v 1 = v.
Proof.
  intros Hodd. apply Z.bits_inj'. intros i Hi. rewrite Z.lor_spec.
  destruct (Z.eq_dec i 0) as [->|Hnz].
  - rewrite Z.bit0_odd, Hodd. reflexivity.
  - replace (Z.testbit 1 i) with false; [apply orb_false_r|].
    symmetry. apply Z.bits_above_log2; simpl; lia.
Qed.

(** X2: a number of 2048 or more does not survive in the handle: for a
    type with an odd value, kLoad returns the same handle for the numbers
    n and n + 2048. *)
Theorem kLoad_handle_collision
    (s : EngineState) (a0 a1 a1' : reg_t) :
  let restype := convertResType (toUint16 a0) in
  restype ≠ kResourceTypeMemory ->
  Z.odd (ResourceType_value restype) = true ->
  toUint16 a1 < 2048 ->
  toUint16 a1' = toUint16 a1 + 2048 ->
  kLoad s [a0; a1'] = kLoad s [a0; a1].
Proof.
  intros restype Hmem Hodd Hnr Hnr'.
  pose proof (toUint16_range a1) as Hrange.
  unfold kLoad. rewrite !argv_at_0, !bind_Normal, !argv_at_1, !bind_Normal.
  fold restype. rewrite bool_decide_eq_false_2 by assumption.
  do 2 f_equal. unfold kLoad_handle. f_equal. rewrite Hnr'.
  replace (toUint16 a1 + 2048) with (Z.lor (Z.shiftl 1 11) (toUint16 a1))
    by (rewrite lor_shiftl_11 by lia; lia).
  rewrite Z.lor_assoc, <- Z.shiftl_lor, lor_odd_1 by assumption.
  reflexivity.
Qed.

(** *** kResCheck *)

(** [kResCheck] on a type other than Audio36 and Sync36, with the first
    lookup's result named. *)
Lemma kResCheck_plain_eq g a0 a1 rest :
  let restype := convertResType (toUint16 a0) in
  let res := getResMan g !! ResourceId2 restype (toUint16 a1) in
  restype ≠ kResourceTypeAudio36 ->
  restype ≠ kResourceTypeSync36 ->
  kResCheck g (a0 :: a1 :: rest) =
  if ENABLE_SCI32
  then
    let res' :=
      if isLSL6Hires && bool_decide (restype = kResourceTypeWave) && negb (notNull res)
      then getResMan g !! ResourceId2 kResourceTypeAudio (toUint16 a1)
      else res in
    match res', kResCheck_format restype with
    | None, Some format =>
        Normal (make_reg 0 (bool_to_Z (fileExists format (toUint16 a1))))
    | _, _ => Normal (make_reg 0 (bool_to_Z (notNull res')))
    end
  else Normal (make_reg 0 (bool_to_Z (notNull res))).
Proof.
  intros restype res H36 HS36. unfold kResCheck.
  rewrite argv_at_0, bind_Normal. fold restype.
  rewrite (bool_decide_eq_false_2 _ H36), (bool_decide_eq_false_2 _ HS36).
  simpl orb. cbv iota.
  rewrite argv_at_1, !bind_Normal. unfold testResource. fold res.
  destruct ENABLE_SCI32; [|reflexivity].
  destruct (isLSL6Hires && bool_decide (restype = kResourceTypeWave) && negb (notNull res)).
  - rewrite bind_Normal.
    destruct (getResMan g !! ResourceId2 kResourceTypeAudio (toUint16 a1));
      [reflexivity|].
    destruct (kResCheck_format restype); reflexivity.
  - rewrite bind_Normal. destruct res; [reflexivity|].
    destruct (kResCheck_format restype); reflexivity.
Qed.

(** X3: for an Audio36 or Sync36 resource, kResCheck called with fewer
    than six arguments answers 0, whatever the resource manager holds and
    whatever the build. *)
Theorem kResCheck_36_too_few_arguments
    (g : SciEngine) (a0 : reg_t) (rest : list reg_t) :
  let restype := convertResType (toUint16 a0) in
  restype = kResourceTypeAudio36 ∨ restype = kResourceTypeSync36 ->
  (length rest < 5)%nat ->
  kResCheck g (a0 :: rest) = Normal (make_reg 0 0).
Proof.
  intros restype H36 Hlen. unfold kResCheck.
  rewrite argv_at_0, bind_Normal. fold restype.
  replace (bool_decide (restype = kResourceTypeAudio36) ||
           bool_decide (restype = kResourceTypeSync36)) with true.
  2:{ destruct H36 as [-> | ->]; reflexivity. }
  replace (6 <=? argc_of (a0 :: rest)) with false.
  2:{ symmetry. apply Z.leb_gt. unfold argc_of. simpl length. lia. }
  cbv iota. rewrite bind_Normal.
  destruct ENABLE_SCI32; [|reflexivity].
  replace (bool_decide (restype = kResourceTypeWave)) with false.
  2:{ destruct H36 as [-> | ->]; reflexivity. }
  rewrite andb_false_r. simpl andb. cbv iota. rewrite bind_Normal.
  destruct H36 as [-> | ->]; reflexivity.
Qed.

(** X4: kResCheck reads the four sub-keys through their low bytes only
    and reads nothing after the sixth argument: two calls whose noun,
    verb, condition and sequence arguments agree in the low byte give the
    same answer. *)
Theorem kResCheck_subkeys_low_byte
    (g : SciEngine) (a0 a1 a2 a3 a4 a5 b2 b3 b4 b5 : reg_t) (rest rest' : list reg_t) :
  Z.land (toUint16 a2) 0xff = Z.land (toUint16 b2) 0xff ->
  Z.land (toUint16 a3) 0xff = Z.land (toUint16 b3) 0xff ->
  Z.land (toUint16 a4) 0xff = Z.land (toUint16 b4) 0xff ->
  Z.land (toUint16 a5) 0xff = Z.land (toUint16 b5) 0xff ->
  kResCheck g (a0 :: a1 :: a2 :: a3 :: a4 :: a5 :: rest) =
  kResCheck g (a0 :: a1 :: b2 :: b3 :: b4 :: b5 :: rest').
Proof.
  intros H2 H3 H4 H5. unfold kResCheck.
  rewrite !argv_at_0, !bind_Normal.
  replace (6 <=? argc_of (a0 :: a1 :: a2 :: a3 :: a4 :: a5 :: rest)) with true
    by (symmetry; apply Z.leb_le; unfold argc_of; simpl length; lia).
  replace (6 <=? argc_of (a0 :: a1 :: b2 :: b3 :: b4 :: b5 :: rest')) with true
    by (symmetry; apply Z.leb_le; unfold argc_of; simpl length; lia).
  cbv iota. rewrite !argv_at_1.
  unfold argv_at. simpl lookup. simpl deref. rewrite !bind_Normal.
  rewrite H2, H3, H4, H5. reflexivity.
Qed.

(** X5: for a Wave resource the manager does not hold, kResCheck answers
    1 exactly when the engine is built with SCI32, the game is the
    high-resolution LSL6 and the manager holds the Audio resource of the
    same number. *)
Theorem kResCheck_wave_alias
    (g : SciEngine) (a0 a1 : reg_t) (rest : list reg_t) :
  convertResType (toUint16 a0) = kResourceTypeWave ->
  getResMan g !! ResourceId2 kResourceTypeWave (toUint16 a1) = None ->
  kResCheck g (a0 :: a1 :: rest) =
  Normal (make_reg 0 (bool_to_Z
    (ENABLE_SCI32 && isLSL6Hires &&
     notNull (getResMan g !! ResourceId2 kResourceTypeAudio (toUint16 a1))))).
Proof.
  intros Htype Hnone.
  rewrite kResCheck_plain_eq by (rewrite Htype; discriminate).
  rewrite Htype, Hnone. simpl.
  destruct ENABLE_SCI32; [|reflexivity].
  destruct isLSL6Hires; simpl; [|reflexivity].
  destruct (getResMan g !! ResourceId2 kResourceTypeAudio (toUint16 a1)); reflexivity.
Qed.

(** X6: for a Robot, Duck or VMD resource, kResCheck answers 1 exactly
    when the manager holds the resource or, in a build with SCI32, the
    file of its number exists. *)
Theorem kResCheck_video_file_fallback
    (g : SciEngine) (a0 a1 : reg_t) (rest : list reg_t) (format : FileFormat) :
  let restype := convertResType (toUint16 a0) in
  kResCheck_format restype = Some format ->
  kResCheck g (a0 :: a1 :: rest) =
  Normal (make_reg 0 (bool_to_Z
    (notNull (getResMan g !! ResourceId2 restype (toUint16 a1)) ||
     (ENABLE_SCI32 && fileExists format (toUint16 a1))))).
Proof.
  intros restype Hfmt.
  assert (H36 : restype ≠ kResourceTypeAudio36) by (intros E; rewrite E in Hfmt; discriminate).
  assert (HS36 : restype ≠ kResourceTypeSync36) by (intros E; rewrite E in Hfmt; discriminate).
  assert (Hwave : restype ≠ kResourceTypeWave) by (intros E; rewrite E in Hfmt; discriminate).
  rewrite kResCheck_plain_eq by assumption. fold restype.
  rewrite (bool_decide_eq_false_2 _ Hwave), andb_false_r. simpl andb. cbv iota zeta.
  rewrite Hfmt.
  destruct ENABLE_SCI32;
    destruct (getResMan g !! ResourceId2 restype (toUint16 a1)); simpl;
    rewrite ?orb_false_r; reflexivity.
Qed.

(** X7: for every other type (not Audio36, Sync36, Wave, Robot, Duck or
    VMD), kResCheck answers 1 exactly when the manager holds the resource,
    in every build and whatever files exist. *)
Theorem kResCheck_plain_type
    (g : SciEngine) (a0 a1 : reg_t) (rest : list reg_t) :
  let restype := convertResType (toUint16 a0) in
  restype ≠ kResourceTypeAudio36 ->
  restype ≠ kResourceTypeSync36 ->
  restype ≠ kResourceTypeWave ->
  kResCheck_format restype = None ->
  kResCheck g (a0 :: a1 :: rest) =
  Normal (make_reg 0 (bool_to_Z
    (notNull (getResMan g !! ResourceId2 restype (toUint16 a1))))).
Proof.
  intros restype H36 HS36 Hwave Hfmt.
  rewrite kResCheck_plain_eq by assumption. fold restype.
  rewrite (bool_decide_eq_false_2 _ Hwave), andb_false_r. simpl andb. cbv iota zeta.
  rewrite Hfmt.
  destruct ENABLE_SCI32;
    destruct (getResMan g !! ResourceId2 restype (toUint16 a1)); reflexivity.
Qed.

(** *** kLock, then kResCheck *)

Lemma findResource_lock_available (rm : ResourceManager) id id' :
  eviction_policy ->
  is_Some (rm !! id) ∨ is_Some (fetch id) ->
  lockCount (findResource id true rm).1 id' =
  if decide (id = id') then lockCount rm id + 1 else lockCount rm id'.
Proof.
  intros Hev Havail.
  destruct (findResource_lock_counts rm id Hev) as [[Hnone Heq]|Hcnt];
    [|apply Hcnt].
  exfalso. unfold findResource in Heq. rewrite Hnone in Heq.
  destruct Havail as [[res Hres]|[bytes Hbytes]]; [congruence|].
  rewrite Hbytes in Heq. discriminate.
Qed.

Lemma lockCount_nonzero_held (rm : ResourceManager) id :
  lockCount rm id ≠ 0 -> is_Some (rm !! id).
Proof.
  unfold lockCount. destruct (rm !! id); [eauto | congruence].
Qed.

(** X8: a resource that kLock has locked is reported by kResCheck.  When
    kLock takes the type as converted (no sound conversion), the type is
    not Audio36 or Sync36 and not SCI3 audio, the lock count is not
    negative, and the resource is in memory or in the backing store, then
    after kLock with the lock flag set kResCheck with the same type and
    number answers 1, under every eviction policy that keeps locked
    resources. *)
Theorem kLock_then_kResCheck
    (g : SciEngine) (s : EngineState) (a0 a1 : reg_t) (rest rest' : list reg_t) :
  let restype := convertResType (toUint16 a0) in
  let R := ResourceId2 restype (toUint16 a1) in
  eviction_policy ->
  kLock_type a0 a1 = restype ->
  restype ≠ kResourceTypeAudio36 ->
  restype ≠ kResourceTypeSync36 ->
  hasSci3Audio && bool_decide (restype = kResourceTypeAudio) = false ->
  kLock_flag rest = true ->
  0 <= lockCount (getResMan g) R ->
  is_Some (getResMan g !! R) ∨ is_Some (fetch R) ->
  ∃ g1,
    kLock g s (a0 :: a1 :: rest) = Normal (g1, r_acc s) ∧
    0 < lockCount (getResMan g1) R ∧
    kResCheck g1 (a0 :: a1 :: rest') = Normal (make_reg 0 1).
Proof.
  intros restype R Hev Htype H36 HS36 Haudio Hflag Hcount Havail.
  rewrite kLock_eq, Hflag. unfold kLock_id. rewrite Htype. fold R.
  unfold kLock_apply. rewrite Haudio.
  rewrite (bool_decide_eq_false_2 _ H36), (bool_decide_eq_false_2 _ HS36).
  rewrite andb_false_r.
  eexists. split; [reflexivity|]. simpl getResMan.
  assert (Hlocked : 0 < lockCount (findResource R true (getResMan g)).1 R).
  { rewrite findResource_lock_available, decide_True by auto. lia. }
  split; [exact Hlocked|].
  destruct (lockCount_nonzero_held (findResource R true (getResMan g)).1 R)
    as [res Hres]; [lia|].
  rewrite kResCheck_plain_eq by assumption. fold restype. simpl getResMan. fold R.
  rewrite Hres. simpl notNull. rewrite andb_false_r. cbv iota zeta.
  destruct ENABLE_SCI32; reflexivity.
Qed.

(** *** kLock: the unlock-all request and nested locks *)

(** X9: the unlock-all request (number 0xFFFF with the lock flag clear,
    before SCI2, when neither early return applies) takes exactly one lock
    off every locked resource of the type: a resource locked twice stays
    locked, and resources of other types and Audio32 are not touched. *)
Theorem kLock_unlock_all_decrements_once
    (g : SciEngine) (s : EngineState) (a0 a1 : reg_t) (rest : list reg_t) :
  let type := kLock_type a0 a1 in
  hasSci3Audio && bool_decide (type = kResourceTypeAudio) = false ->
  (getSciVersion =? SCI_VERSION_1_1) &&
    (bool_decide (type = kResourceTypeAudio36) ||
     bool_decide (type = kResourceTypeSync36)) = false ->
  kLock_flag rest = false ->
  getSciVersion < SCI_VERSION_2 ->
  toUint16 a1 = 0xFFFF ->
  ∃ g1,
    kLock g s (a0 :: a1 :: rest) = Normal (g1, r_acc s) ∧
    _audio32 g1 = _audio32 g ∧
    ∀ id,
      lockCount (getResMan g1) id =
      if decide (getType id = type)
      then if 0 <? lockCount (getResMan g) id
           then lockCount (getResMan g) id - 1
           else lockCount (getResMan g) id
      else lockCount (getResMan g) id.
Proof.
  intros type Hb1 Hb2 Hflag Hver Hnr.
  rewrite kLock_eq, Hflag. fold type. unfold kLock_apply. rewrite Hb1, Hb2.
  apply Z.ltb_lt in Hver. rewrite Hver.
  unfold kLock_id, ResourceId2. simpl getNumber.
  unfold toUint16 in *. rewrite uint16_idem, Hnr. simpl.
  eexists. split; [reflexivity|]. split; [reflexivity|].
  intros id. simpl. apply lockCount_unlock_type.
Qed.

Lemma findResource_unavailable (rm : ResourceManager) id lock :
  rm !! id = None -> fetch id = None -> findResource id lock rm = (rm, None).
Proof. intros Hnone Hfetch. unfold findResource. rewrite Hnone, Hfetch. reflexivity. Qed.

Lemma kLock_repeat_S n g s argv :
  kLock_repeat (S n) g s argv = (r ← kLock g s argv; kLock_repeat n r.1 s argv).
Proof. reflexivity. Qed.

Section Nested.

Variables (s : EngineState) (a0 a1 : reg_t) (restT restF : list reg_t).
Hypothesis Hev : eviction_policy.
Hypothesis HT : kLock_flag restT = true.
Hypothesis HF : kLock_flag restF = false.

Let type := kLock_type a0 a1.
Let R := kLock_id a0 a1.

Lemma kLock_repeat_early n : ∀ g rest,
  hasSci3Audio && bool_decide (type = kResourceTypeAudio) = true ∨
  (getSciVersion =? SCI_VERSION_1_1) &&
    (bool_decide (type = kResourceTypeAudio36) ||
     bool_decide (type = kResourceTypeSync36)) = true ->
  ∃ g1, kLock_repeat n g s (a0 :: a1 :: rest) = Normal g1 ∧
        getResMan g1 = getResMan g.
Proof.
  induction n as [|n IH]; intros g rest Hearly.
  - exists g. split; reflexivity.
  - destruct (kLock_apply_early g s type R (kLock_flag rest) Hearly) as (g' & Hk & Hrm).
    destruct (IH g' rest Hearly) as (g1 & Hrep & Hrm1).
    exists g1. rewrite kLock_repeat_S, kLock_eq. fold type R.
    rewrite Hk, bind_Normal. split; [exact Hrep | congruence].
Qed.

Hypothesis Hb1 : hasSci3Audio && bool_decide (type = kResourceTypeAudio) = false.
Hypothesis Hb2 :
  (getSciVersion =? SCI_VERSION_1_1) &&
    (bool_decide (type = kResourceTypeAudio36) ||
     bool_decide (type = kResourceTypeSync36)) = false.

Lemma kLock_repeat_lock_unavailable n : ∀ g,
  getResMan g !! R = None -> fetch R = None ->
  ∃ g1, kLock_repeat n g s (a0 :: a1 :: restT) = Normal g1 ∧
        getResMan g1 = getResMan g.
Proof.
  induction n as [|n IH]; intros g Hnone Hfetch.
  - exists g. split; reflexivity.
  - rewrite kLock_repeat_S, kLock_eq, HT. fold type R.
    unfold kLock_apply. rewrite Hb1, Hb2.
    rewrite (findResource_unavailable _ _ _ Hnone Hfetch). simpl.
    destruct (IH (mkSciEngine (getResMan g) (_audio32 g)) Hnone Hfetch)
      as (g1 & Hrep & Hrm).
    exists g1. split; [exact Hrep | exact Hrm].
Qed.

Lemma kLock_repeat_lock_available n : ∀ g,
  0 <= lockCount (getResMan g) R ->
  is_Some (getResMan g !! R) ∨ is_Some (fetch R) ->
  ∃ g1, kLock_repeat n g s (a0 :: a1 :: restT) = Normal g1 ∧
        lockCount (getResMan g1) R = lockCount (getResMan g) R + Z.of_nat n.
Proof.
  induction n as [|n IH]; intros g Hcount Havail.
  - exists g. split; [reflexivity | simpl; lia].
  - rewrite kLock_repeat_S, kLock_eq, HT. fold type R.
    unfold kLock_apply. rewrite Hb1, Hb2. simpl.
    set (g' := mkSciEngine (findResource R true (getResMan g)).1 (_audio32 g)).
    assert (Hc' : lockCount (getResMan g') R = lockCount (getResMan g) R + 1).
    { simpl. rewrite findResource_lock_available, decide_True by auto. reflexivity. }
    destruct (IH g') as (g1 & Hrep & Hc1).
    + lia.
    + left. apply lockCount_nonzero_held. lia.
    + exists g1. split; [exact Hrep|]. rewrite Hc1, Hc'. lia.
Qed.

Lemma kLock_repeat_unlock n : ∀ g,
  0 <= lockCount (getResMan g) R ->
  ∃ g2, kLock_repeat n g s (a0 :: a1 :: restF) = Normal g2 ∧
        lockCount (getResMan g2) R = Z.max 0 (lockCount (getResMan g) R - Z.of_nat n).
Proof.
  induction n as [|n IH]; intros g Hcount.
  - exists g. split; [reflexivity | simpl; lia].
  - destruct (kLock_apply_unlock_counts g s type R Hev eq_refl Hb1 Hb2)
      as (g' & Hk & Hc' & _).
    destruct (IH g') as (g2 & Hrep & Hc2).
    + rewrite Hc'. destruct (0 <? lockCount (getResMan g) R) eqn:L; [|lia].
      apply Z.ltb_lt in L. lia.
    + exists g2. rewrite kLock_repeat_S, kLock_eq, HF. fold type R.
      rewrite Hk, bind_Normal. split; [exact Hrep|].
      rewrite Hc2, Hc'. destruct (0 <? lockCount (getResMan g) R) eqn:L.
      * apply Z.ltb_lt in L. lia.
      * apply Z.ltb_ge in L. lia.
Qed.

End Nested.

(** X10: locks nest.  After n kLock calls with the lock flag set, n calls
    with the flag clear bring the resource's lock count back to what it
    was; and when the n locks took effect (the count went up by n), every
    m <= n unlocks leave n - m of them in place. *)
Theorem kLock_nested
    (g : SciEngine) (s : EngineState) (a0 a1 : reg_t) (restT restF : list reg_t)
    (n : nat) :
  eviction_policy ->
  kLock_flag restT = true ->
  kLock_flag restF = false ->
  let R := kLock_id a0 a1 in
  let c := lockCount (getResMan g) R in
  0 <= c ->
  ∃ g1,
    kLock_repeat n g s (a0 :: a1 :: restT) = Normal g1 ∧
    (∃ g2, kLock_repeat n g1 s (a0 :: a1 :: restF) = Normal g2 ∧
           lockCount (getResMan g2) R = c) ∧
    (lockCount (getResMan g1) R = c + Z.of_nat n ->
     ∀ m, (m <= n)%nat ->
       ∃ g2, kLock_repeat m g1 s (a0 :: a1 :: restF) = Normal g2 ∧
             lockCount (getResMan g2) R = c + Z.of_nat n - Z.of_nat m).
Proof.
  intros Hev HT HF R c Hc.
  set (type := kLock_type a0 a1).
  destruct (hasSci3Audio && bool_decide (type = kResourceTypeAudio)) eqn:Hb1;
    [|destruct ((getSciVersion =? SCI_VERSION_1_1) &&
                (bool_decide (type = kResourceTypeAudio36) ||
                 bool_decide (type = kResourceTypeSync36))) eqn:Hb2].
  1,2: (destruct (kLock_repeat_early s a0 a1 n g restT) as (g1 & Hrep & Hrm);
        [auto|];
        exists g1; split; [exact Hrep|]; split;
        [ destruct (kLock_repeat_early s a0 a1 n g1 restF) as (g2 & Hrep2 & Hrm2);
          [auto|];
          exists g2; split; [exact Hrep2|]; rewrite Hrm2, Hrm; reflexivity
        | intros Hcount m Hm;
          destruct (kLock_repeat_early s a0 a1 m g1 restF) as (g2 & Hrep2 & Hrm2);
          [auto|];
          exists g2; split; [exact Hrep2|];
          rewrite Hrm2; rewrite Hrm in Hcount |- *; fold R c in Hcount |- *; lia ]).
  assert (Hlock : ∃ g1, kLock_repeat n g s (a0 :: a1 :: restT) = Normal g1 ∧
                        (lockCount (getResMan g1) R = c + Z.of_nat n ∨
                         lockCount (getResMan g1) R = c ∧ c = 0)).
  { destruct (getResMan g !! R) as [res|] eqn:Hres.
    - destruct (kLock_repeat_lock_available s a0 a1 restT Hev HT Hb1 Hb2 n g)
        as (g1 & Hrep & Hc1); [exact Hc | left; exists res; exact Hres |].
      exists g1. split; [exact Hrep | left; exact Hc1].
    - destruct (fetch R) as [bytes|] eqn:Hfetch.
      + destruct (kLock_repeat_lock_available s a0 a1 restT Hev HT Hb1 Hb2 n g)
          as (g1 & Hrep & Hc1); [exact Hc | right; exists bytes; exact Hfetch |].
        exists g1. split; [exact Hrep | left; exact Hc1].
      + destruct (kLock_repeat_lock_unavailable s a0 a1 restT HT Hb1 Hb2 n g Hres Hfetch)
          as (g1 & Hrep & Hrm).
        exists g1. split; [exact Hrep|]. right.
        assert (Hc0 : c = 0) by (unfold c, lockCount; rewrite Hres; reflexivity).
        rewrite Hrm. fold c. split; [reflexivity | exact Hc0]. }
  destruct Hlock as (g1 & Hrep & Hc1).
  exists g1. split; [exact Hrep|]. split.
  - destruct (kLock_repeat_unlock s a0 a1 restF Hev HF Hb1 Hb2 n g1)
      as (g2 & Hrep2 & Hc2); [fold R; lia|].
    exists g2. split; [exact Hrep2|]. fold R in Hc2. rewrite Hc2. lia.
  - intros Hcount m Hm.
    destruct (kLock_repeat_unlock s a0 a1 restF Hev HF Hb1 Hb2 m g1)
      as (g2 & Hrep2 & Hc2); [fold R; lia|].
    exists g2. split; [exact Hrep2|]. fold R in Hc2. rewrite Hc2, Hcount. lia.
Qed.

(** *** kClone: outcomes and what it leaves alone *)

Lemma allocateClone_frame sm sm1 A :
  allocateClone sm = Some (sm1, A) ->
  getObject sm A = None ∧
  (∀ X, X ≠ A -> getObject sm1 X = getObject sm X).
Proof.
  intros Halloc.
  destruct (allocateClone_Some _ _ _ Halloc) as (table & _ & Htab & Hfree & Hheap1).
  split.
  - rewrite (Htab A eq_refl). exact Hfree.
  - intros X HX. unfold getObject at 1. rewrite Hheap1.
    destruct (decide (getSegment X = getSegment A)) as [HXs|HXs].
    + rewrite HXs, lookup_insert_eq, (Htab X HXs).
      apply lookup_insert_ne. intros Ho. apply HX.
      destruct X, A; simpl in *; subst; reflexivity.
    + rewrite lookup_insert_ne by congruence. reflexivity.
Qed.

Lemma getScriptIfLoaded_putObject_alloc sm sm1 A o seg :
  allocateClone sm = Some (sm1, A) ->
  getScriptIfLoaded (putObject A o sm1) seg = getScriptIfLoaded sm seg.
Proof.
  intros Halloc.
  destruct (allocateClone_Some _ _ _ Halloc) as (table & HnoScr & _ & _ & Hheap1).
  unfold putObject. rewrite Hheap1, lookup_insert_eq.
  unfold getScriptIfLoaded in *. simpl.
  destruct (decide (seg = getSegment A)) as [->|Hne].
  - rewrite lookup_insert_eq. symmetry. exact HnoScr.
  - rewrite !lookup_insert_ne by congruence. reflexivity.
Qed.

Lemma kClone_cases (s : EngineState) (P : reg_t) (rest : list reg_t) :
  match getObject (_segMan s) P with
  | None => kClone s (P :: rest) = Fatal ErrCloneNonObject
  | Some p =>
      match allocateClone (_segMan s) with
      | None => kClone s (P :: rest) = Fatal ErrCloneFailed
      | Some (sm1, A) =>
          match getScriptIfLoaded (_segMan s) (getSegment (getPos p)) with
          | None => kClone s (P :: rest) = Fatal ErrNotAScript
          | Some scr => ∃ s', kClone s (P :: rest) = Normal (s', A)
          end
      end
  end.
Proof.
  destruct (getObject (_segMan s) P) as [p|] eqn:Hp.
  2:{ unfold kClone. rewrite argv_at_0, bind_Normal, Hp. reflexivity. }
  destruct (allocateClone (_segMan s)) as [[sm1 A]|] eqn:Halloc.
  2:{ unfold kClone. rewrite argv_at_0, bind_Normal, Hp, Halloc. reflexivity. }
  destruct (getScriptIfLoaded (_segMan s) (getSegment (getPos p))) as [scr|] eqn:Hscr.
  - destruct (kClone_spec s P rest p sm1 A scr Hp Halloc Hscr) as (s' & Hk & _).
    exists s'. exact Hk.
  - destruct (allocateClone_frame _ _ _ Halloc) as [Hfresh Hframe].
    unfold kClone. rewrite argv_at_0, bind_Normal, Hp, Halloc.
    replace (if Z.land (toUint16 (getInfoSelector p)) kInfoFlagClone =? 0
             then Normal p
             else deref ErrBadPointer (getObject sm1 P)) with (Normal p).
    2:{ destruct (_ =? 0); [reflexivity|].
        rewrite Hframe by congruence. rewrite Hp. reflexivity. }
    rewrite bind_Normal.
    assert (Hget : ∀ o, getScript (putObject A o sm1) (getSegment (getPos p))
                        = Fatal ErrNotAScript).
    { intros o. unfold getScript.
      rewrite (getScriptIfLoaded_putObject_alloc _ _ _ _ _ Halloc), Hscr.
      reflexivity. }
    rewrite Hget. reflexivity.
Qed.

(** X11: the outcomes of kClone.  It stops with a fatal error when the
    parent address resolves to no object, when the allocation fails, and
    when the parent's recorded position lies in no script segment; in
    every other case it returns the newly allocated address. *)
Theorem kClone_outcomes (s : EngineState) (P : reg_t) (rest : list reg_t) :
  (getObject (_segMan s) P = None ->
   kClone s (P :: rest) = Fatal ErrCloneNonObject) ∧
  (∀ p, getObject (_segMan s) P = Some p ->
     (allocateClone (_segMan s) = None ->
      kClone s (P :: rest) = Fatal ErrCloneFailed) ∧
     (∀ sm1 A, allocateClone (_segMan s) = Some (sm1, A) ->
        (getScriptIfLoaded (_segMan s) (getSegment (getPos p)) = None ->
         kClone s (P :: rest) = Fatal ErrNotAScript) ∧
        (is_Some (getScriptIfLoaded (_segMan s) (getSegment (getPos p))) ->
         ∃ s', kClone s (P :: rest) = Normal (s', A)))).
Proof.
  pose proof (kClone_cases s P rest) as Hcases.
  split.
  - intros Hnone. rewrite Hnone in Hcases. exact Hcases.
  - intros p Hp. rewrite Hp in Hcases. split.
    + intros Hfail. rewrite Hfail in Hcases. exact Hcases.
    + intros sm1 A Halloc. rewrite Halloc in Hcases. split.
      * intros Hnoscr. rewrite Hnoscr in Hcases. exact Hcases.
      * intros [scr Hscr]. rewrite Hscr in Hcases. exact Hcases.
Qed.

Lemma kClone_Normal_inv s P rest s' A :
  kClone s (P :: rest) = Normal (s', A) ->
  ∃ p sm1 scr,
    getObject (_segMan s) P = Some p ∧
    allocateClone (_segMan s) = Some (sm1, A) ∧
    getScriptIfLoaded (_segMan s) (getSegment (getPos p)) = Some scr.
Proof.
  intros Hk. pose proof (kClone_cases s P rest) as Hout.
  destruct (getObject (_segMan s) P) as [p|] eqn:Hp; [|congruence].
  destruct (allocateClone (_segMan s)) as [[sm1 A']|] eqn:Halloc; [|congruence].
  destruct (getScriptIfLoaded (_segMan s) (getSegment (getPos p))) as [scr|] eqn:Hscr;
    [|congruence].
  destruct Hout as [s'' Hk']. rewrite Hk in Hk'. injection Hk' as _ ->.
  exists p, sm1, scr. repeat split; reflexivity || assumption.
Qed.

(** X12: kClone touches no existing object.  The address it returns
    resolved to no object before the call, and every other address
    resolves after the call to what it resolved to before. *)
Theorem kClone_preserves_objects
    (s s' : EngineState) (P A : reg_t) (rest : list reg_t) :
  kClone s (P :: rest) = Normal (s', A) ->
  getObject (_segMan s) A = None ∧
  is_Some (getObject (_segMan s') A) ∧
  (∀ X, X ≠ A -> getObject (_segMan s') X = getObject (_segMan s) X).
Proof.
  intros Hk.
  destruct (kClone_Normal_inv _ _ _ _ _ Hk) as (p & sm1 & scr & Hp & Halloc & Hscr).
  destruct (kClone_spec s P rest p sm1 A scr Hp Halloc Hscr)
    as (s'' & Hk' & _ & Hfresh & Hobj & _ & _ & Hframe).
  rewrite Hk in Hk'. injection Hk' as <-.
  split; [exact Hfresh|]. split; [rewrite Hobj; eauto | exact Hframe].
Qed.

(** X13: two clones never share an address.  A second kClone, of any
    parent, returns an address different from the one the first returned,
    and leaves the first clone as it is. *)
Theorem kClone_twice_distinct
    (s s1 s2 : EngineState) (P P' A1 A2 : reg_t) (rest rest' : list reg_t) :
  kClone s (P :: rest) = Normal (s1, A1) ->
  kClone s1 (P' :: rest') = Normal (s2, A2) ->
  A1 ≠ A2 ∧ getObject (_segMan s2) A1 = getObject (_segMan s1) A1.
Proof.
  intros Hk1 Hk2.
  destruct (kClone_Normal_inv _ _ _ _ _ Hk1) as (p1 & sm1 & scr1 & Hp1 & Ha1 & Hs1).
  destruct (kClone_spec s P rest p1 sm1 A1 scr1 Hp1 Ha1 Hs1)
    as (s1' & Hk1' & _ & _ & Hobj1 & _).
  rewrite Hk1 in Hk1'. injection Hk1' as <-.
  destruct (kClone_Normal_inv _ _ _ _ _ Hk2) as (p2 & sm2 & scr2 & Hp2 & Ha2 & Hs2).
  destruct (kClone_spec s1 P' rest' p2 sm2 A2 scr2 Hp2 Ha2 Hs2)
    as (s2' & Hk2' & _ & Hfresh & _ & _ & _ & Hframe).
  rewrite Hk2 in Hk2'. injection Hk2' as <-.
  assert (Hne : A1 ≠ A2) by congruence.
  split; [exact Hne | apply Hframe; exact Hne].
Qed.

Lemma isFreed_kClone_copy p info : isFreed (kClone_copy p info) = isFreed p.
Proof. unfold kClone_copy. destruct (isClass p); reflexivity. Qed.

Lemma kIsObject_eq s a rest :
  getOffset a ≠ SIGNAL_OFFSET ->
  kIsObject s (a :: rest) =
  Normal (make_reg 0 (bool_to_Z (isHeapObject (_segMan s) a))).
Proof.
  intros Hoff. unfold kIsObject. rewrite argv_at_0, bind_Normal.
  apply Z.eqb_neq in Hoff. rewrite Hoff. reflexivity.
Qed.

(** X14: the clone inherits the parent's Freed mark with the rest of the
    copy: the address kClone returns is an object for kIsObject exactly
    when the parent was not marked freed (its offset not being the signal
    offset). *)
Theorem kClone_of_freed_parent
    (s s' : EngineState) (P A : reg_t) (rest : list reg_t) (p : Object) :
  kClone s (P :: rest) = Normal (s', A) ->
  getObject (_segMan s) P = Some p ->
  isHeapObject (_segMan s') A = negb (isFreed p) ∧
  (getOffset A ≠ SIGNAL_OFFSET ->
   kIsObject s' [A] = Normal (make_reg 0 (bool_to_Z (negb (isFreed p))))).
Proof.
  intros Hk Hp.
  destruct (kClone_Normal_inv _ _ _ _ _ Hk) as (p' & sm1 & scr & Hp' & Halloc & Hscr).
  rewrite Hp in Hp'. injection Hp' as <-.
  destruct (kClone_spec s P rest p sm1 A scr Hp Halloc Hscr)
    as (s'' & Hk' & _ & _ & Hobj & _).
  rewrite Hk in Hk'. injection Hk' as <-.
  assert (Hheap : isHeapObject (_segMan s') A = negb (isFreed p)).
  { unfold isHeapObject. rewrite Hobj, isFreed_kClone_copy. reflexivity. }
  split; [exact Hheap|].
  intros Hoff. rewrite kIsObject_eq by assumption. rewrite Hheap. reflexivity.
Qed.

(** *** kDisposeClone, kIsObject and kRespondsTo *)

Lemma getObject_putObject_ne sm a o X :
  X ≠ a -> getObject (putObject a o sm) X = getObject sm X.
Proof.
  intros HX. unfold getObject, putObject.
  destruct (_heap sm !! getSegment a) as [[scr|table|h]|] eqn:E; try reflexivity; simpl.
  - destruct (decide (getSegment a = getSegment X)) as [Hs|Hs].
    + rewrite <- Hs, lookup_insert_eq, E. simpl.
      apply lookup_insert_ne. intros Ho. apply HX.
      destruct X, a; simpl in *; subst; reflexivity.
    + rewrite lookup_insert_ne by assumption. reflexivity.
  - destruct (decide (getSegment a = getSegment X)) as [Hs|Hs].
    + rewrite <- Hs, lookup_insert_eq, E.
      apply lookup_insert_ne. intros Ho. apply HX.
      destruct X, a; simpl in *; subst; reflexivity.
    + rewrite lookup_insert_ne by assumption. reflexivity.
Qed.

Lemma getLockers_putObject sm a o seg :
  getLockers <$> getScriptIfLoaded (putObject a o sm) seg =
  getLockers <$> getScriptIfLoaded sm seg.
Proof.
  unfold getScriptIfLoaded, putObject.
  destruct (_heap sm !! getSegment a) as [[scr|table|h]|] eqn:E; try reflexivity; simpl.
  - destruct (decide (getSegment a = seg)) as [<-|Hs].
    + rewrite lookup_insert_eq, E. reflexivity.
    + rewrite lookup_insert_ne by assumption. reflexivity.
  - destruct (decide (getSegment a = seg)) as [<-|Hs].
    + rewrite lookup_insert_eq, E. reflexivity.
    + rewrite lookup_insert_ne by assumption. reflexivity.
Qed.

Lemma putObject_putObject sm a o o' :
  putObject a o (putObject a o' sm) = putObject a o sm.
Proof.
  unfold putObject at 2 3.
  destruct (_heap sm !! getSegment a) as [[scr|table|h]|] eqn:E.
  - unfold putObject, putScript, setHeap. simpl. rewrite lookup_insert_eq. simpl.
    rewrite !insert_insert_eq. reflexivity.
  - unfold putObject, setHeap. simpl. rewrite lookup_insert_eq.
    rewrite !insert_insert_eq. reflexivity.
  - unfold putObject. rewrite E. reflexivity.
  - unfold putObject. rewrite E. reflexivity.
Qed.

Lemma kDisposeClone_eq s obj rest o :
  getObject (_segMan s) obj = Some o ->
  kDisposeClone s (obj :: rest) =
  Normal (if Z.land (toUint16 (getInfoSelector o)) 3 =? kInfoFlagClone
          then setSegMan (putObject obj (markAsFreed o) (_segMan s)) s
          else s,
          r_acc s).
Proof.
  intros Ho. unfold kDisposeClone. rewrite argv_at_0, bind_Normal, Ho.
  destruct (_ =? _); reflexivity.
Qed.

Lemma kDisposeClone_Normal_inv s obj rest s' r :
  kDisposeClone s (obj :: rest) = Normal (s', r) ->
  ∃ o, getObject (_segMan s) obj = Some o.
Proof.
  unfold kDisposeClone. rewrite argv_at_0, bind_Normal.
  destruct (getObject (_segMan s) obj) as [o|]; [eauto | discriminate].
Qed.

(** X15: disposing twice is harmless.  A second kDisposeClone of the same
    address returns normally and leaves the state the first call left
    exactly as it is. *)
Theorem kDisposeClone_idempotent
    (s : EngineState) (obj : reg_t) (rest rest' : list reg_t) (o : Object) :
  getObject (_segMan s) obj = Some o ->
  ∃ s1,
    kDisposeClone s (obj :: rest) = Normal (s1, r_acc s) ∧
    kDisposeClone s1 (obj :: rest') = Normal (s1, r_acc s).
Proof.
  intros Ho. rewrite (kDisposeClone_eq s obj rest o Ho).
  destruct (Z.land (toUint16 (getInfoSelector o)) 3 =? kInfoFlagClone) eqn:Hpat.
  - eexists. split; [reflexivity|].
    pose proof (getObject_putObject_eq _ _ _ (markAsFreed o) Ho) as Ho1.
    rewrite (kDisposeClone_eq _ obj rest' (markAsFreed o)) by exact Ho1.
    simpl getInfoSelector. rewrite Hpat. simpl _segMan.
    rewrite putObject_putObject. reflexivity.
  - exists s. split; [reflexivity|].
    rewrite (kDisposeClone_eq s obj rest' o Ho), Hpat. reflexivity.
Qed.

(** X16: kDisposeClone changes nothing but the Freed mark of the one
    object.  It returns the accumulator; every other address resolves as
    before; the object itself keeps its selectors, fields and position;
    and no script's locker count changes (the lockers kClone added are not
    given back). *)
Theorem kDisposeClone_frame
    (s s' : EngineState) (obj r : reg_t) (rest : list reg_t) :
  kDisposeClone s (obj :: rest) = Normal (s', r) ->
  r = r_acc s ∧
  (∀ X, X ≠ obj -> getObject (_segMan s') X = getObject (_segMan s) X) ∧
  (∃ o, getObject (_segMan s) obj = Some o ∧
        (getObject (_segMan s') obj = Some o ∨
         getObject (_segMan s') obj = Some (markAsFreed o))) ∧
  (∀ seg, getLockers <$> getScriptIfLoaded (_segMan s') seg =
          getLockers <$> getScriptIfLoaded (_segMan s) seg).
Proof.
  intros Hk. destruct (kDisposeClone_Normal_inv _ _ _ _ _ Hk) as [o Ho].
  rewrite (kDisposeClone_eq s obj rest o Ho) in Hk.
  injection Hk as <- <-. split; [reflexivity|].
  destruct (_ =? _).
  - simpl _segMan. split; [|split].
    + intros X HX. apply getObject_putObject_ne. exact HX.
    + exists o. split; [exact Ho|]. right.
      apply (getObject_putObject_eq _ _ _ _ Ho).
    + intros seg. apply getLockers_putObject.
  - split; [reflexivity|]. split; [|reflexivity].
    exists o. split; [exact Ho | left; exact Ho].
Qed.

Lemma kRespondsTo_non_object s obj sel rest :
  isHeapObject (_segMan s) obj = false ->
  kRespondsTo s (obj :: sel :: rest) = Normal (make_reg 0 0).
Proof.
  intros Hno. unfold kRespondsTo.
  rewrite argv_at_0, bind_Normal, argv_at_1, bind_Normal, Hno. reflexivity.
Qed.

Lemma kIsObject_non_object s obj rest :
  isHeapObject (_segMan s) obj = false ->
  kIsObject s (obj :: rest) = Normal (make_reg 0 0).
Proof.
  intros Hno. unfold kIsObject. rewrite argv_at_0, bind_Normal, Hno.
  destruct (_ =? _); reflexivity.
Qed.

(** X17: a disposed clone is no object any more.  After kDisposeClone on
    an object whose two low info bits equal the clone flag, kIsObject
    answers 0 for its address and kRespondsTo answers 0 for every
    selector, without looking the selector up (so even where the lookup
    would stop with a fatal error). *)
Theorem kDisposeClone_then_queries
    (s : EngineState) (obj : reg_t) (rest : list reg_t) (o : Object) :
  getObject (_segMan s) obj = Some o ->
  Z.land (toUint16 (getInfoSelector o)) 3 = kInfoFlagClone ->
  ∃ s',
    kDisposeClone s (obj :: rest) = Normal (s', r_acc s) ∧
    (∀ rest', kIsObject s' (obj :: rest') = Normal (make_reg 0 0)) ∧
    (∀ sel rest', kRespondsTo s' (obj :: sel :: rest') = Normal (make_reg 0 0)).
Proof.
  intros Ho Hpat.
  rewrite (kDisposeClone_eq s obj rest o Ho).
  apply Z.eqb_eq in Hpat. rewrite Hpat.
  eexists. split; [reflexivity|].
  assert (Hno : isHeapObject (putObject obj (markAsFreed o) (_segMan s)) obj = false).
  { unfold isHeapObject.
    rewrite (getObject_putObject_eq _ _ _ (markAsFreed o) Ho). reflexivity. }
  split.
  - intros rest'. apply kIsObject_non_object. exact Hno.
  - intros sel rest'. apply kRespondsTo_non_object. exact Hno.
Qed.

(** X18: what responds to a selector is a heap object, and kIsObject
    agrees except at the signal offset: when kRespondsTo answers 1 for an
    address, kIsObject answers 1 for it unless its offset is the signal
    offset, where kIsObject answers 0 all the same. *)
Theorem kRespondsTo_implies_kIsObject
    (s : EngineState) (obj sel : reg_t) (rest : list reg_t) :
  kRespondsTo s (obj :: sel :: rest) = Normal (make_reg 0 1) ->
  isHeapObject (_segMan s) obj = true ∧
  (getOffset obj ≠ SIGNAL_OFFSET -> kIsObject s [obj] = Normal (make_reg 0 1)) ∧
  (getOffset obj = SIGNAL_OFFSET -> kIsObject s [obj] = Normal (make_reg 0 0)).
Proof.
  intros Hk.
  assert (Hheap : isHeapObject (_segMan s) obj = true).
  { destruct (isHeapObject (_segMan s) obj) eqn:E; [reflexivity|].
    rewrite (kRespondsTo_non_object s obj sel rest E) in Hk.
    cbv in Hk. discriminate Hk. }
  split; [exact Hheap|]. split.
  - intros Hoff. rewrite kIsObject_eq by assumption. rewrite Hheap. reflexivity.
  - intros Hoff. unfold kIsObject. rewrite argv_at_0, bind_Normal.
    apply Z.eqb_eq in Hoff. rewrite Hoff. reflexivity.
Qed.

Lemma kClone_info_low_bits info :
  Z.land kInfoFlagClone 3 = kInfoFlagClone ->
  Z.land info (Z.land 3 (Z.lnot (Z.lor kInfoFlagClone kInfoFlagClass))) = 0 ->
  Z.land (toUint16 (make_reg 0 (Z.lor (uint16 (Z.land info (Z.lnot kInfoFlagClass)))
                                      kInfoFlagClone))) 3
  = kInfoFlagClone.
Proof.
  intros Hk3 Hlow. unfold toUint16, make_reg. simpl getOffset. unfold uint16.
  assert (H3F : Z.land 3 65535 = 3) by reflexivity.
  apply Z.bits_inj'. intros n Hn.
  apply (f_equal (fun z => Z.testbit z n)) in Hk3.
  apply (f_equal (fun z => Z.testbit z n)) in Hlow.
  apply (f_equal (fun z => Z.testbit z n)) in H3F.
  rewrite ?Z.bits_0 in *.
  rewrite ?Z.land_spec, ?Z.lor_spec, ?Z.land_spec, ?Z.lnot_spec, ?Z.lor_spec
    in * by assumption.
  destruct (Z.testbit kInfoFlagClone n), (Z.testbit kInfoFlagClass n),
           (Z.testbit 65535 n), (Z.testbit 3 n), (Z.testbit info n);
    simpl in *; congruence.
Qed.

(** X19: the life of a clone.  When the clone flag lies in the two low
    bits and the parent's info selector has no other low bit set, a clone
    of a parent that is not freed is an object for kIsObject, and
    kDisposeClone of the address kClone returned ends that: kIsObject and
    kRespondsTo answer 0 afterwards. *)
Theorem kClone_then_kDisposeClone
    (s s1 : EngineState) (P A : reg_t) (rest : list reg_t) (p : Object) :
  kClone s (P :: rest) = Normal (s1, A) ->
  getObject (_segMan s) P = Some p ->
  isFreed p = false ->
  Z.land kInfoFlagClone 3 = kInfoFlagClone ->
  Z.land (toUint16 (getInfoSelector p))
         (Z.land 3 (Z.lnot (Z.lor kInfoFlagClone kInfoFlagClass))) = 0 ->
  getOffset A ≠ SIGNAL_OFFSET ->
  kIsObject s1 [A] = Normal (make_reg 0 1) ∧
  ∃ s2,
    kDisposeClone s1 [A] = Normal (s2, r_acc s) ∧
    kIsObject s2 [A] = Normal (make_reg 0 0) ∧
    (∀ sel, kRespondsTo s2 [A; sel] = Normal (make_reg 0 0)).
Proof.
  intros Hk Hp Hlive Hk3 Hlow Hoff.
  destruct (kClone_Normal_inv _ _ _ _ _ Hk) as (p' & sm1 & scr & Hp' & Halloc & Hscr).
  rewrite Hp in Hp'. injection Hp' as <-.
  destruct (kClone_spec s P rest p sm1 A scr Hp Halloc Hscr)
    as (s'' & Hk' & _ & _ & Hobj & _).
  rewrite Hk in Hk'. injection Hk' as <-.
  split.
  { rewrite kIsObject_eq by assumption. unfold isHeapObject.
    rewrite Hobj, isFreed_kClone_copy, Hlive. reflexivity. }
  assert (Hacc : r_acc s1 = r_acc s).
  { unfold kClone in Hk. rewrite argv_at_0, bind_Normal, Hp, Halloc in Hk.
    destruct (if _ =? 0 then _ else _) as [p0|e] eqn:E1; [|discriminate].
    rewrite bind_Normal in Hk.
    destruct (getScript _ _) as [scr1|e]; [|discriminate].
    rewrite bind_Normal in Hk.
    destruct (getScript _ _) as [scr2|e]; [|discriminate].
    rewrite bind_Normal in Hk. injection Hk as <-. reflexivity. }
  rewrite (kDisposeClone_eq s1 A [] _ Hobj), getInfoSelector_kClone_copy.
  rewrite (kClone_info_low_bits _ Hk3 Hlow), Z.eqb_refl, Hacc.
  eexists. split; [reflexivity|].
  assert (Hno : isHeapObject
                  (putObject A (markAsFreed (kClone_copy p (toUint16 (getInfoSelector p))))
                             (_segMan s1)) A = false).
  { unfold isHeapObject. rewrite (getObject_putObject_eq _ _ _ _ Hobj). reflexivity. }
  split; [apply kIsObject_non_object; exact Hno|].
  intros sel. apply kRespondsTo_non_object. exact Hno.
Qed.

(** *** kDisposeScript *)

(** X20: a script that is not loaded, or whose segment is marked deleted,
    is handed to uninstantiateScript with the segment manager untouched;
    the execution stack is not consulted (it may even be empty), and the
    result is the second argument when there are exactly two arguments and
    the accumulator otherwise. *)
Theorem kDisposeScript_not_loaded
    (s : EngineState) (a0 : reg_t) (rest : list reg_t) :
  let script := getOffset a0 in
  let id := getScriptSegment (_segMan s) script in
  (getScriptIfLoaded (_segMan s) id = None ∨
   ∃ scr, getScriptIfLoaded (_segMan s) id = Some scr ∧ isMarkedAsDeleted scr = true) ->
  kDisposeScript_before s script = Normal (_segMan s) ∧
  kDisposeScript s (a0 :: rest) =
    (sm2 ← uninstantiateScript script (_segMan s);
     Normal (setSegMan sm2 s, match rest with [a1] => a1 | _ => r_acc s end)).
Proof.
  intros script id Hnot.
  assert (Hbefore : kDisposeScript_before s script = Normal (_segMan s)).
  { unfold kDisposeScript_before. fold id.
    destruct Hnot as [-> | (scr & -> & ->)]; reflexivity. }
  split; [exact Hbefore|].
  unfold kDisposeScript. rewrite argv_at_0, bind_Normal. fold script.
  rewrite Hbefore, bind_Normal.
  destruct (uninstantiateScript script (_segMan s)) as [sm2|e]; [|reflexivity].
  rewrite bind_Normal. unfold argc_of.
  destruct rest as [|a1 [|a2 rest]]; [reflexivity | reflexivity |].
  replace (Z.of_nat (length (a0 :: a1 :: a2 :: rest)) =? 2) with false;
    [reflexivity|].
  symmetry. apply Z.eqb_neq. simpl length. lia.
Qed.

(** X21: forcing the lockers touches nothing else.  In the segment
    manager kDisposeScript hands to uninstantiateScript every address
    resolves to the object it resolved to, every script has its objects,
    dispatch table and deleted flag (only a locker count may differ), and
    the script map and the clone table's id are the same. *)
Theorem kDisposeScript_before_frame
    (s : EngineState) (script : Z) (sm1 : SegManager) :
  kDisposeScript_before s script = Normal sm1 ->
  (∀ X, getObject sm1 X = getObject (_segMan s) X) ∧
  (∀ seg,
     match getScriptIfLoaded (_segMan s) seg with
     | Some scr => ∃ n, getScriptIfLoaded sm1 seg = Some (setLockers n scr)
     | None => getScriptIfLoaded sm1 seg = None
     end) ∧
  _scriptSegMap sm1 = _scriptSegMap (_segMan s) ∧
  _clonesSegId sm1 = _clonesSegId (_segMan s).
Proof.
  intros Hbefore.
  assert (Hsame : ∀ seg,
            match getScriptIfLoaded (_segMan s) seg with
            | Some scr => ∃ n, getScriptIfLoaded (_segMan s) seg = Some (setLockers n scr)
            | None => getScriptIfLoaded (_segMan s) seg = None
            end).
  { intros seg. destruct (getScriptIfLoaded (_segMan s) seg) as [scr|]; [|reflexivity].
    exists (getLockers scr). destruct scr; reflexivity. }
  unfold kDisposeScript_before in Hbefore.
  set (id := getScriptSegment (_segMan s) script) in *.
  destruct (getScriptIfLoaded (_segMan s) id) as [scr|] eqn:Hscr.
  2:{ injection Hbefore as <-. repeat split; try reflexivity. exact Hsame. }
  destruct (isMarkedAsDeleted scr); simpl negb in Hbefore; cbv iota in Hbefore.
  { injection Hbefore as <-. repeat split; try reflexivity. exact Hsame. }
  destruct (back (_executionStack s)) as [top|e]; [|discriminate].
  rewrite bind_Normal in Hbefore.
  destruct (negb (getSegment (xs_pc top) =? id)).
  2:{ injection Hbefore as <-. repeat split; try reflexivity. exact Hsame. }
  injection Hbefore as <-.
  assert (Hheap : _heap (_segMan s) !! id = Some (SegScript scr)).
  { unfold getScriptIfLoaded in Hscr.
    destruct (_heap (_segMan s) !! id) as [[?|?|?]|]; congruence. }
  split; [|split; [|split; reflexivity]].
  - intros X. unfold getObject, putScript. simpl.
    destruct (decide (getSegment X = id)) as [->|Hne].
    + rewrite lookup_insert_eq, Hheap. reflexivity.
    + rewrite lookup_insert_ne by congruence. reflexivity.
  - intros seg. unfold getScriptIfLoaded at 2 3, putScript. simpl.
    destruct (decide (seg = id)) as [->|Hne].
    + rewrite Hscr, lookup_insert_eq. exists 1. reflexivity.
    + rewrite lookup_insert_ne by congruence.
      fold (getScriptIfLoaded (_segMan s) seg). apply Hsame.
Qed.

(** *** kScriptID with an export index *)

(** X22: for a script that loads to a segment and an export index inside
    its dispatch table, kScriptID returns the address in that segment
    whose offset is the export's offset plus the script's heap offset; a
    second call in the state the first one left returns the same address
    and leaves that state as it is. *)
Theorem kScriptID_export_address
    (s : EngineState) (a0 a1 : reg_t) (sm1 : SegManager) (seg : Z)
    (scr : Script) (offset : Z) :
  getSegment a0 = 0 ->
  getScriptSegment_load (_segMan s) (toUint16 a0) = (sm1, seg) ->
  seg ≠ 0 ->
  getScriptIfLoaded sm1 seg = Some scr ->
  _exportTable scr !! Z.to_nat (toUint16 a1) = Some offset ->
  let address := make_reg32 seg (uint32 (offset + getHeapOffset scr)) in
  kScriptID s [a0; a1] = Normal (setSegMan sm1 s, address) ∧
  kScriptID (setSegMan sm1 s) [a0; a1] = Normal (setSegMan sm1 s, address).
Proof.
  intros Hseg Hload Hnz Hscr Hexp address.
  pose proof (toUint16_range a1) as Hrange.
  assert (Hlen : toUint16 a1 < getExportsNr scr).
  { apply lookup_lt_Some in Hexp. unfold getExportsNr. lia. }
  assert (Hval : validateExportFunc scr (toUint16 a1) = Normal offset).
  { unfold validateExportFunc. rewrite decide_True by lia. rewrite Hexp. reflexivity. }
  assert (Hgen : ∀ s0, getScriptSegment_load (_segMan s0) (toUint16 a0) = (sm1, seg) ->
                       kScriptID s0 [a0; a1] = Normal (setSegMan sm1 s0, address)).
  { intros s0 Hload0. rewrite kScriptID_eq_2. unfold kScriptID_resolve.
    rewrite Hseg, Hload0. simpl negb. cbv iota.
    apply Z.eqb_neq in Hnz. rewrite Hnz.
    unfold getScript. rewrite Hscr. simpl deref. rewrite bind_Normal.
    replace (getExportsNr scr =? 0) with false
      by (symmetry; apply Z.eqb_neq; lia).
    change (2 =? 1) with false. rewrite andb_false_r.
    rewrite Hval, bind_Normal. reflexivity. }
  split; [apply Hgen; exact Hload|].
  rewrite (Hgen (setSegMan sm1 s)); [reflexivity|].
  simpl _segMan. apply getScriptSegment_load_idem with (sm := _segMan s).
  exact Hload.
Qed.

End KScripts.

(** ** The kernel calls run on the example engine *)

Local Abbreviation ex_kClone := (kClone ex_kInfoFlagClone ex_kInfoFlagClass).
Local Abbreviation ex_kDisposeClone := (kDisposeClone ex_kInfoFlagClone).
Local Abbreviation ex_kScriptID := (kScriptID false ex_scriptStore).
Local Abbreviation ex_kDisposeScript := (kDisposeScript ex_uninstantiateScript).
Local Abbreviation ex_kIsObject := (kIsObject ex_SIGNAL_OFFSET).
Local Abbreviation ex_kLock version :=
  (kLock version ex_SCI_VERSION_1_1 ex_SCI_VERSION_2 false
         ex_convertResType ex_getSoundResourceType ex_audio32_lockResource
         ex_fetch ex_freeOldResources).

Lemma ex_freeOldResources_policy : eviction_policy ex_freeOldResources.
Proof.
  intros rm id res. unfold ex_freeOldResources. split.
  - intros Hres Hlocked. apply map_lookup_filter_Some. split; assumption.
  - intros Hres. apply map_lookup_filter_Some in Hres as [Hres _]. exact Hres.
Qed.

(** Cloning the example class: the clone's species is the class, and the
    class's script has two lockers more. *)
Lemma kClone_of_class_witness :
  (getObject (_segMan ex_state) ex_C = Some ex_class ∧
   allocateClone (_segMan ex_state) = Some (ex_segMan_alloc, ex_A)) ∧
  ∃ s' o,
    ex_kClone ex_state [ex_C] = Normal (s', ex_A) ∧
    getObject (_segMan s') ex_A = Some o ∧
    getSpeciesSelector o = ex_C ∧
    getSuperClassSelector o = ex_C ∧
    getScriptIfLoaded (_segMan s') 1 = Some (setLockers 5 ex_script5) ∧
    getScriptIfLoaded (_segMan s') 2 = None.
Proof.
  split; [split; vm_compute; reflexivity|].
  destruct (kClone_of_class ex_kInfoFlagClone ex_kInfoFlagClass
              ex_state ex_C [] ex_class ex_segMan_alloc ex_A ex_script5)
    as (s' & o & Hk & _ & _ & Hobj & Hsp & Hsu & _ & _ & Hlock & Hnone & _);
    try (vm_compute; reflexivity).
  exists s', o. repeat split; assumption.
Defined.

(** On the example class the specification's reading of kClone fails: the
    clone's species is the class 0001:000a, not the clone's address
    0002:0000 (and segment 1 gets both lockers). *)
Lemma cloneObject_claim_counterexample :
  ¬ cloneObject_claim ex_kInfoFlagClone ex_kInfoFlagClass ex_state ex_C.
Proof.
  intros (s' & A & o & Hk & _ & Hobj & Hspecies & _).
  assert (Hrun : ex_kClone ex_state [ex_C] = Normal (ex_state2, ex_A))
    by (vm_compute; reflexivity).
  rewrite Hrun in Hk. injection Hk as <- <-.
  assert (Hclone : getObject (_segMan ex_state2) ex_A = Some ex_clone)
    by (vm_compute; reflexivity).
  rewrite Hclone in Hobj. injection Hobj as <-.
  discriminate Hspecies.
Qed.

(** Cloning the example clone: the new clone's superclass is the class,
    as in its parent, and not the parent clone's address. *)
Lemma kClone_of_clone_keeps_superclass_witness :
  (getObject (_segMan ex_state2) ex_A = Some ex_clone ∧
   isClass ex_kInfoFlagClass ex_clone = false ∧
   allocateClone (_segMan ex_state2) = Some (ex_segMan2_alloc, ex_A2)) ∧
  ∃ s' o,
    ex_kClone ex_state2 [ex_A] = Normal (s', ex_A2) ∧
    getObject (_segMan s') ex_A2 = Some o ∧
    getSuperClassSelector o = ex_C ∧
    getSuperClassSelector o ≠ ex_A.
Proof.
  split; [repeat split; vm_compute; reflexivity|].
  destruct (kClone_of_clone_keeps_superclass ex_kInfoFlagClone ex_kInfoFlagClass
              ex_state2 ex_A [] ex_clone ex_segMan2_alloc ex_A2
              (setLockers 5 ex_script5))
    as (s' & o & Hk & Hobj & Hsu & Hne);
    try (vm_compute; reflexivity); [vm_compute; discriminate|].
  exists s', o. repeat split; try assumption.
  apply Hne. vm_compute. discriminate.
Defined.



(** Disposing the example clone with a second argument returns the
    accumulator 0000:0005. *)
Lemma kDisposeClone_returns_accumulator_witness :
  getObject (_segMan ex_state2) ex_A = Some ex_clone ∧
  ∃ s', ex_kDisposeClone ex_state2 [ex_A; make_reg 0 7] = Normal (s', make_reg 0 5).
Proof.
  split; [vm_compute; reflexivity|].
  apply (kDisposeClone_returns_accumulator ex_kInfoFlagClone
           ex_state2 ex_A [make_reg 0 7] ex_clone).
  vm_compute. reflexivity.
Defined.

(** The specification's reading of kDisposeClone's result fails on the
    example clone: with the second argument 0000:0007 the call returns the
    accumulator 0000:0005. *)
Lemma disposeClone_result_claim_counterexample :
  ¬ disposeClone_result_claim ex_kInfoFlagClone ex_state2 ex_A (make_reg 0 7).
Proof.
  intros [_ (s' & Hk)]. vm_compute in Hk. discriminate Hk.
Qed.

(** Disposing script 5 while the engine executes in segment 3: the
    script's locker count, 3, is set to 1 before uninstantiation. *)
Lemma kDisposeScript_lockers_before_uninstantiate_witness :
  (getScriptIfLoaded (_segMan ex_state) 1 = Some ex_script5 ∧
   getLockers ex_script5 = 3 ∧
   last (_executionStack ex_state) = Some (mkExecStack (mk_reg 3 0))) ∧
  ∃ sm1,
    kDisposeScript_before ex_state 5 = Normal sm1 ∧
    ex_kDisposeScript ex_state [make_reg 0 5] = Normal (setSegMan sm1 ex_state, make_reg 0 5) ∧
    getLockers <$> getScriptIfLoaded sm1 1 = Some 1.
Proof.
  split; [repeat split; vm_compute; reflexivity|].
  destruct (kDisposeScript_lockers_before_uninstantiate ex_uninstantiateScript
              ex_state (make_reg 0 5) [] ex_script5 (mkExecStack (mk_reg 3 0)))
    as (sm1 & Hbefore & Hk & Hforce & _); try (vm_compute; reflexivity).
  exists sm1. split; [exact Hbefore|]. split; [exact Hk|].
  apply Hforce. vm_compute. discriminate.
Defined.

(** Script 5 has no dispatch table: kScriptID(5) is null and
    kScriptID(5, 0) is fatal.  Script 6 has two exports: kScriptID(6, 2)
    is fatal. *)
Lemma kScriptID_dispatch_table_witness :
  (getScriptSegment_load ex_scriptStore (_segMan ex_state) 5 = (ex_segMan, 1) ∧
   getScriptSegment_load ex_scriptStore (_segMan ex_state) 6 = (ex_segMan_loaded6, 2)) ∧
  ex_kScriptID ex_state [make_reg 0 5] = Normal (ex_state, NULL_REG) ∧
  ex_kScriptID ex_state [make_reg 0 5; make_reg 0 0] = Fatal ErrNoDispatchTable ∧
  ex_kScriptID ex_state [make_reg 0 6; make_reg 0 2] = Fatal ErrInvalidExport.
Proof.
  split; [split; vm_compute; reflexivity|].
  destruct (kScriptID_dispatch_table false ex_scriptStore
              ex_state (make_reg 0 5) ex_segMan 1 ex_script5)
    as [Hnone _]; try (vm_compute; reflexivity); [vm_compute; discriminate|].
  destruct (kScriptID_dispatch_table false ex_scriptStore
              ex_state (make_reg 0 6) ex_segMan_loaded6 2 ex_script6)
    as [_ Hrange]; try (vm_compute; reflexivity); [vm_compute; discriminate|].
  destruct Hnone as [H1 H2]; [vm_compute; reflexivity|].
  split; [exact H1|]. split; [apply H2|].
  apply Hrange; vm_compute; discriminate.
Defined.

(** A resolved handle passes through kScriptID; kScriptID(6) loads script
    6 and returns its first export, and does the same again without
    changing the state. *)
Lemma kScriptID_idempotent_witness :
  ex_kScriptID ex_state [ex_C; make_reg 0 1] = Normal (ex_state, ex_C) ∧
  ∃ s1 r,
    ex_kScriptID ex_state [make_reg 0 6] = Normal (s1, r) ∧
    ex_kScriptID s1 [make_reg 0 6] = Normal (s1, r).
Proof.
  split.
  - apply (kScriptID_idempotent false ex_scriptStore ex_state ex_C).
    vm_compute. discriminate.
  - apply (kScriptID_idempotent false ex_scriptStore ex_state (make_reg 0 6)).
    vm_compute. reflexivity.
Defined.

(** Locking view 7 (two locks) and unlocking it once gives two locks
    again, under the policy that evicts everything it may. *)
Lemma kLock_lock_unlock_roundtrip_witness :
  (eviction_policy ex_freeOldResources ∧
   lockCount (getResMan ex_engine) ex_R = 2) ∧
  ∃ g1 g2,
    ex_kLock ex_SCI_VERSION_0_LATE ex_engine ex_state [make_reg 0 0x80; make_reg 0 7]
      = Normal (g1, r_acc ex_state) ∧
    ex_kLock ex_SCI_VERSION_0_LATE g1 ex_state [make_reg 0 0x80; make_reg 0 7; make_reg 0 0]
      = Normal (g2, r_acc ex_state) ∧
    lockCount (getResMan g2) ex_R = 2.
Proof.
  split; [split; [exact ex_freeOldResources_policy | vm_compute; reflexivity]|].
  destruct (kLock_lock_unlock_roundtrip
              ex_SCI_VERSION_0_LATE ex_SCI_VERSION_1_1 ex_SCI_VERSION_2 false
              ex_convertResType ex_getSoundResourceType ex_audio32_lockResource
              ex_fetch ex_freeOldResources
              ex_engine ex_state (make_reg 0 0x80) (make_reg 0 7) [] [make_reg 0 0])
    as [(g1 & g2 & Hk1 & Hk2 & Hcount) _];
    [exact ex_freeOldResources_policy | reflexivity | reflexivity
    | vm_compute; discriminate |].
  exists g1, g2. split; [exact Hk1|]. split; [exact Hk2|]. exact Hcount.
Defined.

(** An address with the signal offset is no object for kIsObject, even
    the address of the example clone's segment. *)
Lemma kIsObject_signal_offset_witness :
  ex_kIsObject ex_state2 [mk_reg 2 0xFFFF] = Normal NULL_REG.
Proof.
  apply (kIsObject_signal_offset ex_SIGNAL_OFFSET ex_state2 (mk_reg 2 0xFFFF) []).
  reflexivity.
Defined.

(** On SCI 1.1, locking and unlocking an Audio36 resource leave the
    engine as it is. *)
Lemma kLock_sci11_audio36_sync36_noop_witness :
  ex_kLock ex_SCI_VERSION_1_1 ex_engine ex_state [make_reg 0 0x92; make_reg 0 7]
    = Normal (ex_engine, r_acc ex_state) ∧
  ex_kLock ex_SCI_VERSION_1_1 ex_engine ex_state [make_reg 0 0x92; make_reg 0 7; make_reg 0 0]
    = Normal (ex_engine, r_acc ex_state).
Proof.
  split;
    apply (kLock_sci11_audio36_sync36_noop
             ex_SCI_VERSION_1_1 ex_SCI_VERSION_1_1 ex_SCI_VERSION_2 false
             ex_convertResType ex_getSoundResourceType ex_audio32_lockResource
             ex_fetch ex_freeOldResources ex_engine ex_state
             (make_reg 0 0x92) (make_reg 0 7));
    [reflexivity | left; vm_compute; reflexivity
    | reflexivity | left; vm_compute; reflexivity].
Defined.

(** ** The further properties on the example engine *)

Local Abbreviation ex_kLoad :=
  (kLoad ex_convertResType ex_ResourceType_value ex_allocateHunkEntry).
Local Abbreviation ex_kResCheck sci32 lsl6 :=
  (kResCheck ex_convertResType2 sci32 lsl6 ex_fileExists).
Local Abbreviation ex_kRespondsTo := (kRespondsTo ex_lookupSelector).
Local Abbreviation ex_kLock_repeat :=
  (kLock_repeat ex_SCI_VERSION_0_LATE ex_SCI_VERSION_1_1 ex_SCI_VERSION_2 false
                ex_convertResType ex_getSoundResourceType ex_audio32_lockResource
                ex_fetch ex_freeOldResources).

(** The handle of resource 100 of type 3 is 3 * 2048 + 100, whatever
    follows the number. *)
Lemma kLoad_handle_roundtrip_witness :
  ∃ handle,
    ex_kLoad ex_state [make_reg 0 0x83; make_reg 0 100; make_reg 0 9]
      = Normal (ex_state, handle) ∧
    ex_kLoad ex_state [make_reg 0 0x83; make_reg 0 100]
      = Normal (ex_state, handle) ∧
    getOffset handle = 6244 ∧
    Z.shiftr (getOffset handle) 11 = 3 ∧
    Z.land (getOffset handle) 0x7FF = 100.
Proof.
  destruct (kLoad_handle_roundtrip ex_convertResType ex_ResourceType_value
              ex_allocateHunkEntry ex_state (make_reg 0 0x83) (make_reg 0 100))
    as (handle & Hk & _ & Hbits); [vm_compute; discriminate|].
  destruct Hbits as [Htype Hnr];
    [vm_compute; split; [discriminate | reflexivity] | vm_compute; reflexivity |].
  exists handle. split; [exact (Hk [make_reg 0 9])|]. split; [exact (Hk [])|].
  split; [|split; [exact Htype | exact Hnr]].
  specialize (Hk []). vm_compute in Hk. injection Hk as <-. reflexivity.
Defined.

(** For type 3 the numbers 5 and 2053 get the same handle. *)
Lemma kLoad_handle_collision_witness :
  ex_kLoad ex_state [make_reg 0 0x83; make_reg 0 2053]
  = ex_kLoad ex_state [make_reg 0 0x83; make_reg 0 5].
Proof.
  apply (kLoad_handle_collision ex_convertResType ex_ResourceType_value
           ex_allocateHunkEntry ex_state (make_reg 0 0x83) (make_reg 0 5)
           (make_reg 0 2053));
    [vm_compute; discriminate | reflexivity | reflexivity | reflexivity].
Defined.

(** The Audio36 resource 7 (1, 2, 3, 4) is held, and kResCheck finds it
    with six arguments; with five it answers 0. *)
Lemma kResCheck_36_too_few_arguments_witness :
  ex_kResCheck true false ex_engine36
    [make_reg 0 0x92; make_reg 0 7; make_reg 0 1; make_reg 0 2; make_reg 0 3; make_reg 0 4]
    = Normal (make_reg 0 1) ∧
  ex_kResCheck true false ex_engine36
    [make_reg 0 0x92; make_reg 0 7; make_reg 0 1; make_reg 0 2; make_reg 0 3]
    = Normal (make_reg 0 0).
Proof.
  split; [vm_compute; reflexivity|].
  apply (kResCheck_36_too_few_arguments ex_convertResType2 true false ex_fileExists
           ex_engine36 (make_reg 0 0x92)
           [make_reg 0 7; make_reg 0 1; make_reg 0 2; make_reg 0 3]);
    [left; vm_compute; reflexivity | simpl; lia].
Defined.

(** The sub-keys 0x0101, 0x0202, 0x0303, 0x0404 find the resource with the
    tuple (1, 2, 3, 4). *)
Lemma kResCheck_subkeys_low_byte_witness :
  ex_kResCheck true false ex_engine36
    [make_reg 0 0x92; make_reg 0 7;
     make_reg 0 0x0101; make_reg 0 0x0202; make_reg 0 0x0303; make_reg 0 0x0404]
    = Normal (make_reg 0 1).
Proof.
  rewrite (kResCheck_subkeys_low_byte ex_convertResType2 true false ex_fileExists
             ex_engine36 (make_reg 0 0x92) (make_reg 0 7)
             (make_reg 0 0x0101) (make_reg 0 0x0202) (make_reg 0 0x0303) (make_reg 0 0x0404)
             (make_reg 0 1) (make_reg 0 2) (make_reg 0 3) (make_reg 0 4) [] []);
    vm_compute; reflexivity.
Defined.

(** With the Audio resource 7 held and the Wave resource 7 not, kResCheck
    of Wave 7 answers 1 in LSL6 hires and 0 in any other game. *)
Lemma kResCheck_wave_alias_witness :
  ex_kResCheck true true ex_engine_audio [make_reg 0 0x94; make_reg 0 7]
    = Normal (make_reg 0 1) ∧
  ex_kResCheck true false ex_engine_audio [make_reg 0 0x94; make_reg 0 7]
    = Normal (make_reg 0 0).
Proof.
  split.
  - rewrite (kResCheck_wave_alias ex_convertResType2 true true ex_fileExists
               ex_engine_audio (make_reg 0 0x94) (make_reg 0 7) []);
      vm_compute; reflexivity.
  - rewrite (kResCheck_wave_alias ex_convertResType2 true false ex_fileExists
               ex_engine_audio (make_reg 0 0x94) (make_reg 0 7) []);
      vm_compute; reflexivity.
Defined.

(** No Robot resource is held; 7.rbt exists and 8.rbt does not. *)
Lemma kResCheck_video_file_fallback_witness :
  ex_kResCheck true false ex_engine_empty [make_reg 0 0x95; make_reg 0 7]
    = Normal (make_reg 0 1) ∧
  ex_kResCheck true false ex_engine_empty [make_reg 0 0x95; make_reg 0 8]
    = Normal (make_reg 0 0) ∧
  ex_kResCheck false false ex_engine_empty [make_reg 0 0x95; make_reg 0 7]
    = Normal (make_reg 0 0).
Proof.
  split; [|split].
  - rewrite (kResCheck_video_file_fallback ex_convertResType2 true false ex_fileExists
               ex_engine_empty (make_reg 0 0x95) (make_reg 0 7) [] format_rbt);
      vm_compute; reflexivity.
  - rewrite (kResCheck_video_file_fallback ex_convertResType2 true false ex_fileExists
               ex_engine_empty (make_reg 0 0x95) (make_reg 0 8) [] format_rbt);
      vm_compute; reflexivity.
  - rewrite (kResCheck_video_file_fallback ex_convertResType2 false false ex_fileExists
               ex_engine_empty (make_reg 0 0x95) (make_reg 0 7) [] format_rbt);
      vm_compute; reflexivity.
Defined.

(** View 7 is held and view 9 is not. *)
Lemma kResCheck_plain_type_witness :
  ex_kResCheck true true ex_engine [make_reg 0 0x80; make_reg 0 7]
    = Normal (make_reg 0 1) ∧
  ex_kResCheck true true ex_engine [make_reg 0 0x80; make_reg 0 9]
    = Normal (make_reg 0 0).
Proof.
  split.
  - rewrite (kResCheck_plain_type ex_convertResType2 true true ex_fileExists
               ex_engine (make_reg 0 0x80) (make_reg 0 7) []);
      try (vm_compute; reflexivity); vm_compute; discriminate.
  - rewrite (kResCheck_plain_type ex_convertResType2 true true ex_fileExists
               ex_engine (make_reg 0 0x80) (make_reg 0 9) []);
      try (vm_compute; reflexivity); vm_compute; discriminate.
Defined.

(** Locking view 7 in an empty resource manager loads it, and kResCheck
    then finds it although the policy evicts all it may. *)
Lemma kLock_then_kResCheck_witness :
  (getResMan ex_engine_empty !! ex_R = None ∧ is_Some (ex_fetch ex_R)) ∧
  ∃ g1,
    ex_kLock ex_SCI_VERSION_0_LATE ex_engine_empty ex_state
      [make_reg 0 0x80; make_reg 0 7] = Normal (g1, r_acc ex_state) ∧
    kResCheck ex_convertResType true false ex_fileExists g1
      [make_reg 0 0x80; make_reg 0 7] = Normal (make_reg 0 1).
Proof.
  split; [split; [reflexivity | eexists; reflexivity]|].
  destruct (kLock_then_kResCheck
              ex_SCI_VERSION_0_LATE ex_SCI_VERSION_1_1 ex_SCI_VERSION_2 false
              ex_convertResType ex_getSoundResourceType ex_audio32_lockResource
              ex_fetch ex_freeOldResources true false ex_fileExists
              ex_engine_empty ex_state (make_reg 0 0x80) (make_reg 0 7) [] [])
    as (g1 & Hk & _ & Hcheck);
    [exact ex_freeOldResources_policy | vm_compute; reflexivity
    | vm_compute; discriminate | vm_compute; discriminate
    | reflexivity | reflexivity | vm_compute; discriminate
    | right; eexists; reflexivity |].
  exists g1. split; [exact Hk | exact Hcheck].
Defined.

(** The unlock-all request for views: view 7 goes from two locks to one,
    view 8 from one to none, and the resource of another type keeps its
    lock. *)
Lemma kLock_unlock_all_decrements_once_witness :
  ∃ g1,
    ex_kLock ex_SCI_VERSION_0_LATE ex_engine_many ex_state
      [make_reg 0 0x80; make_reg 0 0xFFFF; make_reg 0 0] = Normal (g1, r_acc ex_state) ∧
    lockCount (getResMan g1) ex_R = 1 ∧
    lockCount (getResMan g1) ex_R8 = 0 ∧
    lockCount (getResMan g1) ex_R_other = 1.
Proof.
  destruct (kLock_unlock_all_decrements_once
              ex_SCI_VERSION_0_LATE ex_SCI_VERSION_1_1 ex_SCI_VERSION_2 false
              ex_convertResType ex_getSoundResourceType ex_audio32_lockResource
              ex_fetch ex_freeOldResources
              ex_engine_many ex_state (make_reg 0 0x80) (make_reg 0 0xFFFF) [make_reg 0 0])
    as (g1 & Hk & _ & Hall);
    [reflexivity | reflexivity | reflexivity | reflexivity | reflexivity |].
  exists g1. split; [exact Hk|].
  rewrite !Hall. vm_compute. repeat split; reflexivity.
Defined.

(** Three locks on view 7 (two locks) and three unlocks give two locks. *)
Lemma kLock_nested_witness :
  ∃ g1 g2,
    ex_kLock_repeat 3 ex_engine ex_state [make_reg 0 0x80; make_reg 0 7] = Normal g1 ∧
    ex_kLock_repeat 3 g1 ex_state [make_reg 0 0x80; make_reg 0 7; make_reg 0 0]
      = Normal g2 ∧
    lockCount (getResMan g2) ex_R = 2.
Proof.
  destruct (kLock_nested
              ex_SCI_VERSION_0_LATE ex_SCI_VERSION_1_1 ex_SCI_VERSION_2 false
              ex_convertResType ex_getSoundResourceType ex_audio32_lockResource
              ex_fetch ex_freeOldResources
              ex_engine ex_state (make_reg 0 0x80) (make_reg 0 7) [] [make_reg 0 0] 3)
    as (g1 & Hrep & (g2 & Hrep2 & Hcount) & _);
    [exact ex_freeOldResources_policy | reflexivity | reflexivity
    | vm_compute; discriminate |].
  exists g1, g2. split; [exact Hrep|]. split; [exact Hrep2 | exact Hcount].
Defined.

(** Cloning what is no object is fatal; cloning the clone whose script is
    gone is fatal; cloning the example class succeeds. *)
Lemma kClone_outcomes_witness :
  ex_kClone ex_state [mk_reg 9 9] = Fatal ErrCloneNonObject ∧
  ex_kClone ex_state_orphan [ex_A] = Fatal ErrNotAScript ∧
  ∃ s', ex_kClone ex_state [ex_C] = Normal (s', ex_A).
Proof.
  split; [|split].
  - apply (kClone_outcomes ex_kInfoFlagClone ex_kInfoFlagClass ex_state (mk_reg 9 9) []).
    vm_compute. reflexivity.
  - destruct (kClone_outcomes ex_kInfoFlagClone ex_kInfoFlagClass
                ex_state_orphan ex_A []) as [_ Hsome].
    destruct (Hsome ex_clone) as [_ Halloc]; [vm_compute; reflexivity|].
    destruct (Halloc (mkSegManager
                        {[2 := SegClones (<[1 := emptyObject]> {[0 := ex_clone]})]} 2 ∅)
                     ex_A2) as [Hnoscr _]; [vm_compute; reflexivity|].
    assert (Hfatal := Hnoscr eq_refl).
    vm_compute in Hfatal |- *. exact Hfatal.
  - destruct (kClone_outcomes ex_kInfoFlagClone ex_kInfoFlagClass ex_state ex_C [])
      as [_ Hsome].
    destruct (Hsome ex_class) as [_ Halloc]; [vm_compute; reflexivity|].
    destruct (Halloc ex_segMan_alloc ex_A) as [_ Hok]; [vm_compute; reflexivity|].
    apply Hok. exists ex_script5. vm_compute. reflexivity.
Defined.

(** Cloning the example class leaves the class as it is, and the clone's
    address held no object before. *)
Lemma kClone_preserves_objects_witness :
  ex_kClone ex_state [ex_C] = Normal (ex_state2, ex_A) ∧
  getObject (_segMan ex_state) ex_A = None ∧
  getObject (_segMan ex_state2) ex_C = Some ex_class.
Proof.
  assert (Hk : ex_kClone ex_state [ex_C] = Normal (ex_state2, ex_A))
    by (vm_compute; reflexivity).
  split; [exact Hk|].
  destruct (kClone_preserves_objects ex_kInfoFlagClone ex_kInfoFlagClass
              ex_state ex_state2 ex_C ex_A [] Hk) as (Hfresh & _ & Hframe).
  split; [exact Hfresh|].
  rewrite Hframe; [vm_compute; reflexivity | vm_compute; discriminate].
Defined.

(** The clone of the class sits at 0002:0000 and the clone of that clone
    at 0002:0001. *)
Lemma kClone_twice_distinct_witness :
  ∃ s2,
    ex_kClone ex_state [ex_C] = Normal (ex_state2, ex_A) ∧
    ex_kClone ex_state2 [ex_A] = Normal (s2, ex_A2) ∧
    ex_A ≠ ex_A2 ∧
    getObject (_segMan s2) ex_A = Some ex_clone.
Proof.
  assert (Hk1 : ex_kClone ex_state [ex_C] = Normal (ex_state2, ex_A))
    by (vm_compute; reflexivity).
  assert (Hk2 : ∃ s2, ex_kClone ex_state2 [ex_A] = Normal (s2, ex_A2))
    by (eexists; vm_compute; reflexivity).
  destruct Hk2 as [s2 Hk2]. exists s2.
  destruct (kClone_twice_distinct ex_kInfoFlagClone ex_kInfoFlagClass
              ex_state ex_state2 s2 ex_C ex_A ex_A ex_A2 [] [] Hk1 Hk2)
    as [Hne Hsame].
  split; [exact Hk1|]. split; [exact Hk2|]. split; [exact Hne|].
  rewrite Hsame. vm_compute. reflexivity.
Defined.

(** The clone of a class marked freed is no object for kIsObject. *)
Lemma kClone_of_freed_parent_witness :
  ∃ s',
    ex_kClone ex_state_freed [ex_C] = Normal (s', ex_A) ∧
    ex_kIsObject s' [ex_A] = Normal (make_reg 0 0).
Proof.
  assert (Hk : ∃ s', ex_kClone ex_state_freed [ex_C] = Normal (s', ex_A))
    by (eexists; vm_compute; reflexivity).
  destruct Hk as [s' Hk]. exists s'. split; [exact Hk|].
  destruct (kClone_of_freed_parent ex_kInfoFlagClone ex_kInfoFlagClass ex_SIGNAL_OFFSET
              ex_state_freed s' ex_C ex_A [] (markAsFreed ex_class) Hk)
    as [_ His]; [vm_compute; reflexivity|].
  apply His. vm_compute. discriminate.
Defined.

(** Disposing the example clone twice. *)
Lemma kDisposeClone_idempotent_witness :
  ∃ s1,
    ex_kDisposeClone ex_state2 [ex_A] = Normal (s1, r_acc ex_state2) ∧
    ex_kDisposeClone s1 [ex_A] = Normal (s1, r_acc ex_state2).
Proof.
  apply (kDisposeClone_idempotent ex_kInfoFlagClone ex_state2 ex_A [] [] ex_clone).
  vm_compute. reflexivity.
Defined.

(** Disposing the example clone leaves the class and the five lockers of
    its script. *)
Lemma kDisposeClone_frame_witness :
  ∃ s',
    ex_kDisposeClone ex_state2 [ex_A] = Normal (s', make_reg 0 5) ∧
    getObject (_segMan s') ex_C = Some ex_class ∧
    getLockers <$> getScriptIfLoaded (_segMan s') 1 = Some 5.
Proof.
  assert (Hk : ∃ s', ex_kDisposeClone ex_state2 [ex_A] = Normal (s', make_reg 0 5))
    by (eexists; vm_compute; reflexivity).
  destruct Hk as [s' Hk]. exists s'. split; [exact Hk|].
  destruct (kDisposeClone_frame ex_kInfoFlagClone ex_state2 s' ex_A (make_reg 0 5) [] Hk)
    as (_ & Hframe & _ & Hlock).
  split.
  - rewrite Hframe; [vm_compute; reflexivity | vm_compute; discriminate].
  - rewrite Hlock. vm_compute. reflexivity.
Defined.

(** After its disposal the example clone is no object and responds to no
    selector, not even to selector 1. *)
Lemma kDisposeClone_then_queries_witness :
  ex_kRespondsTo ex_state2 [ex_A; make_reg 0 1] = Normal (make_reg 0 1) ∧
  ∃ s',
    ex_kDisposeClone ex_state2 [ex_A] = Normal (s', r_acc ex_state2) ∧
    ex_kIsObject s' [ex_A] = Normal (make_reg 0 0) ∧
    ex_kRespondsTo s' [ex_A; make_reg 0 1] = Normal (make_reg 0 0).
Proof.
  split; [vm_compute; reflexivity|].
  destruct (kDisposeClone_then_queries ex_kInfoFlagClone ex_SIGNAL_OFFSET
              ex_lookupSelector ex_state2 ex_A [] ex_clone)
    as (s' & Hk & His & Hresp); [vm_compute; reflexivity | vm_compute; reflexivity |].
  exists s'. split; [exact Hk|]. split; [apply His | apply Hresp].
Defined.

(** The example clone responds to selector 1 and is an object. *)
Lemma kRespondsTo_implies_kIsObject_witness :
  ex_kRespondsTo ex_state2 [ex_A; make_reg 0 1] = Normal (make_reg 0 1) ∧
  ex_kIsObject ex_state2 [ex_A] = Normal (make_reg 0 1).
Proof.
  assert (Hk : ex_kRespondsTo ex_state2 [ex_A; make_reg 0 1] = Normal (make_reg 0 1))
    by (vm_compute; reflexivity).
  split; [exact Hk|].
  destruct (kRespondsTo_implies_kIsObject ex_SIGNAL_OFFSET ex_lookupSelector
              ex_state2 ex_A (make_reg 0 1) [] Hk) as (_ & His & _).
  apply His. vm_compute. discriminate.
Defined.

(** The clone of the example class is an object until it is disposed. *)
Lemma kClone_then_kDisposeClone_witness :
  ex_kClone ex_state [ex_C] = Normal (ex_state2, ex_A) ∧
  ex_kIsObject ex_state2 [ex_A] = Normal (make_reg 0 1) ∧
  ∃ s2,
    ex_kDisposeClone ex_state2 [ex_A] = Normal (s2, r_acc ex_state) ∧
    ex_kIsObject s2 [ex_A] = Normal (make_reg 0 0) ∧
    ex_kRespondsTo s2 [ex_A; make_reg 0 1] = Normal (make_reg 0 0).
Proof.
  assert (Hk : ex_kClone ex_state [ex_C] = Normal (ex_state2, ex_A))
    by (vm_compute; reflexivity).
  split; [exact Hk|].
  destruct (kClone_then_kDisposeClone ex_kInfoFlagClone ex_kInfoFlagClass
              ex_SIGNAL_OFFSET ex_lookupSelector
              ex_state ex_state2 ex_C ex_A [] ex_class Hk)
    as (His & s2 & Hd & His2 & Hresp);
    try (vm_compute; reflexivity); [vm_compute; discriminate|].
  split; [exact His|]. exists s2. split; [exact Hd|]. split; [exact His2 | apply Hresp].
Defined.

(** Disposing script 9, which is not loaded, with an empty execution
    stack: the segment manager is handed on as it is and the second
    argument is returned. *)
Lemma kDisposeScript_not_loaded_witness :
  kDisposeScript_before ex_state_nostack 9 = Normal ex_segMan ∧
  ex_kDisposeScript ex_state_nostack [make_reg 0 9; make_reg 0 4]
    = Normal (ex_state_nostack, make_reg 0 4).
Proof.
  destruct (kDisposeScript_not_loaded ex_uninstantiateScript
              ex_state_nostack (make_reg 0 9) [make_reg 0 4])
    as [Hbefore Hk]; [left; vm_compute; reflexivity|].
  split; [exact Hbefore|]. rewrite Hk. reflexivity.
Defined.

(** Forcing the lockers of script 5 leaves its class object in place. *)
Lemma kDisposeScript_before_frame_witness :
  ∃ sm1,
    kDisposeScript_before ex_state 5 = Normal sm1 ∧
    getLockers <$> getScriptIfLoaded sm1 1 = Some 1 ∧
    getObject sm1 ex_C = Some ex_class.
Proof.
  assert (Hk : ∃ sm1, kDisposeScript_before ex_state 5 = Normal sm1 ∧
                      getLockers <$> getScriptIfLoaded sm1 1 = Some 1)
    by (eexists; split; vm_compute; reflexivity).
  destruct Hk as (sm1 & Hk & Hlock). exists sm1.
  split; [exact Hk|]. split; [exact Hlock|].
  destruct (kDisposeScript_before_frame ex_state 5 sm1 Hk) as [Hobj _].
  rewrite Hobj. vm_compute. reflexivity.
Defined.

(** Export 1 of script 6 (offset 200) is at 0002:00c8, on the first call,
    which loads the script, and on the second. *)
Lemma kScriptID_export_address_witness :
  ex_kScriptID ex_state [make_reg 0 6; make_reg 0 1]
    = Normal (setSegMan ex_segMan_loaded6 ex_state, mk_reg 2 200) ∧
  ex_kScriptID (setSegMan ex_segMan_loaded6 ex_state) [make_reg 0 6; make_reg 0 1]
    = Normal (setSegMan ex_segMan_loaded6 ex_state, mk_reg 2 200).
Proof.
  apply (kScriptID_export_address false ex_scriptStore ex_state
           (make_reg 0 6) (make_reg 0 1) ex_segMan_loaded6 2 ex_script6 200);
    try (vm_compute; reflexivity).
  vm_compute. discriminate.
Defined.
